(** * claude-skill-manager: source identifiers, fetcher, configuration store
      and installer, embedded from the Python sources.

    Python [str] values are Rocq strings (a character stands for a code point
    below 256), dictionaries are stdpp finite maps, exceptions are an explicit
    sum type, and the file system and the HTTP server are explicit state. *)

From stdpp Require Import gmap strings pretty list fin_maps.
From Stdlib Require Import Ascii QArith.

Close Scope Q_scope.
Set Warnings "-register-all".
Local Open Scope string_scope.

(* ===================================================================== *)
(** ** Python string primitives used by the sources *)
(* ===================================================================== *)

Module PyStr.

(** [s.split(sep)] for a one-character separator: never returns [[]]. *)
Fixpoint split (sep : ascii) (s : string) : list string :=
  match s with
  | EmptyString => [EmptyString]
  | String c rest =>
      if Ascii.eqb c sep then EmptyString :: split sep rest
      else match split sep rest with
           | [] => [String c EmptyString]
           | seg :: segs => String c seg :: segs
           end
  end.

(** Number of occurrences of a character. *)
Fixpoint count (sep : ascii) (s : string) : nat :=
  match s with
  | EmptyString => 0
  | String c rest => (if Ascii.eqb c sep then 1 else 0) + count sep rest
  end.

(** [str.isspace] on one character: tab, LF, VT, FF, CR, FS, GS, RS, US,
    space, NEL and NBSP. *)
Definition isspace (c : ascii) : bool :=
  let n := N_of_ascii c in
  ((9 <=? n) && (n <=? 13) || (28 <=? n) && (n <=? 32)
   || (n =? 133) || (n =? 160))%N.

Fixpoint lstrip (s : string) : string :=
  match s with
  | EmptyString => EmptyString
  | String c rest => if isspace c then lstrip rest else s
  end.

Fixpoint rstrip (s : string) : string :=
  match s with
  | EmptyString => EmptyString
  | String c rest =>
      match rstrip rest with
      | EmptyString => if isspace c then EmptyString else String c EmptyString
      | kept => String c kept
      end
  end.

(** [s.strip()] *)
Definition strip (s : string) : string := rstrip (lstrip s).

(** Truth value of a string: non-empty. *)
Definition truthy (s : string) : bool :=
  match s with EmptyString => false | String _ _ => true end.

(** [s.endswith(suffix)] *)
Fixpoint endswith (s suffix : string) : bool :=
  String.eqb s suffix
  || match s with
     | EmptyString => false
     | String _ rest => endswith rest suffix
     end.

Definition LF : ascii := Ascii.ascii_of_nat 10.

(** Whether a string holds a character that [strip] keeps. *)
Fixpoint has_nonspace (s : string) : bool :=
  match s with
  | EmptyString => false
  | String c rest => negb (isspace c) || has_nonspace rest
  end.

End PyStr.

(* ===================================================================== *)
(** ** Exceptions and results *)
(* ===================================================================== *)

(** Messages of the [FetchError]s raised in fetcher.py. *)
Inductive fetch_error :=
| FileTooLarge (size : nat)
| ContentEmpty
| ContentNotValid
| SkillNotFound (skill_name full_name branch : string)
| AccessForbidden
| ServerError (status : Z)
| UnexpectedStatus (status : Z)
| NetworkError (detail : string)
| RetriesFailed.

(** Messages of the [ValueError]s raised in models.py and config.py. *)
Inductive value_error :=
| InvalidSourceFormat (source : string)
| InvalidConfiguration
| CannotRemoveDefault.

(** The Python exceptions the program can end with.  [Unmodelled] is not
    one of them: it marks a run that reached a path outside the skills
    directory, where what the code does depends on the rest of the file
    system; no theorem says what happens there. *)
Inductive exn :=
| ValueError (msg : value_error)
| FileNotFoundError
| FileExistsError
| TypeError
| YAMLError
| ValidationError
| FrontmatterError
| NotADirectoryError
| Unmodelled
| FetchError (msg : fetch_error).

Inductive result (A : Type) :=
| Ok (a : A)
| Raise (e : exn).
Arguments Ok {A} a.
Arguments Raise {A} e.

(* ===================================================================== *)
(** ** models.py *)
(* ===================================================================== *)

Record SkillSource := mkSkillSource {
  owner : string;
  repo : string;
  branch : string
}.

Definition full_name (s : SkillSource) : string :=
  owner s +:+ "/" +:+ repo s.

(** [SkillSource.from_string] *)
Definition from_string (source : string) (branch : string) : result SkillSource :=
  let parts := PyStr.split "/"%char source in
  if decide (length parts ≠ 2) then
    Raise (ValueError (InvalidSourceFormat source))
  else
    Ok {| owner := default EmptyString (parts !! 0%nat);
          repo := default EmptyString (parts !! 1%nat);
          branch := branch |}.

(** The shape check shared by both [SkillConfig] field validators. *)
Definition source_format_ok (source : string) : bool :=
  bool_decide (length (PyStr.split "/"%char source) = 2).

(** The spec's notion of a malformed source string: no ['/'], more than one
    ['/'], or an empty segment. *)
Definition spec_malformed (source : string) : bool :=
  (PyStr.count "/"%char source =? 0)%nat
  || (1 <? PyStr.count "/"%char source)%nat
  || existsb (fun seg => negb (PyStr.truthy seg)) (PyStr.split "/"%char source).


(* ===================================================================== *)
(** ** Stateful computations that may raise *)
(* ===================================================================== *)

(** A computation over a state [S]: it ends with a value or an exception,
    and the state reached so far is kept in both cases. *)
Definition M (S A : Type) : Type := S → result A * S.

Global Instance M_ret {S} : MRet (M S) := λ A a s, (Ok a, s).
Global Instance M_bind {S} : MBind (M S) := λ A B k m s,
  match m s with
  | (Ok a, s') => k a s'
  | (Raise e, s') => (Raise e, s')
  end.

Definition raise {S A} (e : exn) : M S A := λ s, (Raise e, s).
Definition gets {S A} (f : S → A) : M S A := λ s, (Ok (f s), s).
Definition modify {S} (f : S → S) : M S unit := λ s, (Ok tt, f s).
Definition lift {S A} (r : result A) : M S A := λ s, (r, s).

(* ===================================================================== *)
(** ** Values exchanged with the YAML library and with pydantic *)
(* ===================================================================== *)

(** What [yaml.safe_load] returns: null, booleans, integers, strings, other
    plain scalars (floats, dates: only their truth value matters here),
    lists and dicts (items in insertion order, keys pairwise distinct). *)
Inductive yaml :=
| YNull
| YBool (b : bool)
| YInt (n : Z)
| YStr (s : string)
| YOther (truth : bool)
| YSeq (items : list yaml)
| YMap (items : list (yaml * yaml)).

(** Python truth value, as used by [x or {}] and [if x]. *)
Definition py_truthy (y : yaml) : bool :=
  match y with
  | YNull => false
  | YBool b => b
  | YInt n => negb (n =? 0)%Z
  | YStr s => PyStr.truthy s
  | YOther t => t
  | YSeq items => match items with [] => false | _ => true end
  | YMap items => match items with [] => false | _ => true end
  end.

(** [x or {}] *)
Definition or_empty_dict (y : yaml) : yaml :=
  if py_truthy y then y else YMap [].

Definition as_str (y : yaml) : option string :=
  match y with YStr s => Some s | _ => None end.

Definition as_str_item (kv : yaml * yaml) : option (string * string) :=
  k ← as_str kv.1; v ← as_str kv.2; Some (k, v).

Definition as_str_key (kv : yaml * yaml) : option (string * yaml) :=
  k ← as_str kv.1; Some (k, kv.2).

(** Unpacking [data] as keyword arguments: [data] must be a mapping whose keys are all strings,
    otherwise Python raises [TypeError] before pydantic runs. *)
Definition kwargs (data : yaml) : result (list (string * yaml)) :=
  match data with
  | YMap items =>
      match mapM as_str_key items with
      | Some kw => Ok kw
      | None => Raise TypeError
      end
  | _ => Raise TypeError
  end.

(** Keyword lookup. *)
Fixpoint kwarg (key : string) (kw : list (string * yaml)) : option yaml :=
  match kw with
  | [] => None
  | (k, v) :: rest => if String.eqb k key then Some v else kwarg key rest
  end.

(** pydantic validation of a [str] field. *)
Definition validate_str (field : option yaml) : option string :=
  y ← field; as_str y.

(** pydantic validation of a [list[str]] field with [default_factory=list]. *)
Definition validate_str_list (field : option yaml) : option (list string) :=
  match field with
  | None => Some []
  | Some (YSeq items) => mapM as_str items
  | Some _ => None
  end.

(** pydantic validation of a [dict[str, str]] value. *)
Definition validate_str_dict (y : yaml) : option (gmap string string) :=
  match y with
  | YMap items => list_to_map <$> mapM as_str_item items
  | _ => None
  end.

(** External libraries, taken at their interface. *)
Class Yaml := {
  (** [yaml.safe_load]; [None] when the text is not YAML ([YAMLError]). *)
  safe_load : string → option yaml;
  (** [yaml.safe_dump(data, default_flow_style=False, sort_keys=False)] *)
  safe_dump : yaml → string
}.

Class Frontmatter := {
  (** [frontmatter.loads(content).metadata], or the exception it raises. *)
  frontmatter_loads : string → result (list (yaml * yaml))
}.

Class Hashlib := {
  (** [hashlib.sha256(content.encode("utf-8")).hexdigest()] *)
  sha256_hexdigest : string → string
}.

Class Datetime := {
  datetime : Type;
  (** serialisation of a [datetime] by [model_dump(mode="json")] *)
  isoformat : datetime → string;
  (** pydantic validation of a [datetime] field *)
  validate_datetime : yaml → option datetime
}.

(* ===================================================================== *)
(** ** models.py, continued: the pydantic models *)
(* ===================================================================== *)

Record SkillConfig := mkSkillConfig {
  default_source : string;
  allowed_sources : list string;
  aliases : gmap string string
}.

(** Constructing [SkillConfig] from keyword arguments: both field validators accept a source exactly when
    splitting it on ['/'] gives two parts; unknown keys are ignored. *)
Definition SkillConfig_validate (kw : list (string * yaml)) : option SkillConfig :=
  ds ← validate_str (kwarg "default_source" kw);
  srcs ← validate_str_list (kwarg "allowed_sources" kw);
  als ← match kwarg "aliases" kw with
        | None => Some ∅
        | Some y => validate_str_dict y
        end;
  if negb (forallb source_format_ok srcs) then None
  else if negb (source_format_ok ds) then None
  else Some {| default_source := ds; allowed_sources := srcs; aliases := als |}.

Definition dump_str_dict (m : gmap string string) : yaml :=
  YMap ((λ kv, (YStr kv.1, YStr kv.2)) <$> map_to_list m).

(** [config.model_dump(exclude_none=True)] *)
Definition SkillConfig_dump (c : SkillConfig) : yaml :=
  YMap [ (YStr "default_source", YStr (default_source c));
         (YStr "allowed_sources", YSeq (YStr <$> allowed_sources c));
         (YStr "aliases", dump_str_dict (aliases c)) ].

Record Skill := mkSkill {
  name : string;
  content : string;
  source : string;
  skill_branch : string;
  metadata : option (gmap string string)
}.

(** [Skill.filename] *)
Definition filename (skill : Skill) : string :=
  if PyStr.endswith (name skill) ".md" then name skill
  else name skill +:+ ".md".

Section Metadata.
Context `{Datetime}.

Record SkillMetadata := mkSkillMetadata {
  md_source : string;
  fetched_at : datetime;
  md_branch : string;
  checksum : string
}.

Record SkillsMetadata := mkSkillsMetadata {
  skills : gmap string SkillMetadata
}.

(** Validation of one [SkillMetadata] from a nested mapping. *)
Definition SkillMetadata_validate (y : yaml) : option SkillMetadata :=
  match kwargs y with
  | Raise _ => None
  | Ok kw =>
      src ← validate_str (kwarg "source" kw);
      at_ ← kwarg "fetched_at" kw ≫= validate_datetime;
      br ← match kwarg "branch" kw with
           | None => Some "main"
           | Some y => as_str y
           end;
      cs ← validate_str (kwarg "checksum" kw);
      Some {| md_source := src; fetched_at := at_; md_branch := br;
              checksum := cs |}
  end.

Definition SkillMetadata_item (kv : yaml * yaml)
  : option (string * SkillMetadata) :=
  k ← as_str kv.1; v ← SkillMetadata_validate kv.2; Some (k, v).

(** Constructing [SkillsMetadata] from keyword arguments. *)
Definition SkillsMetadata_validate (kw : list (string * yaml))
  : option SkillsMetadata :=
  match kwarg "skills" kw with
  | None => Some {| skills := ∅ |}
  | Some (YMap items) =>
      recs ← mapM SkillMetadata_item items;
      Some {| skills := list_to_map recs |}
  | Some _ => None
  end.

Definition SkillMetadata_dump (r : SkillMetadata) : yaml :=
  YMap [ (YStr "source", YStr (md_source r));
         (YStr "fetched_at", YStr (isoformat (fetched_at r)));
         (YStr "branch", YStr (md_branch r));
         (YStr "checksum", YStr (checksum r)) ].

(** [metadata.model_dump(mode="json")] *)
Definition SkillsMetadata_dump (m : SkillsMetadata) : yaml :=
  YMap [ (YStr "skills",
          YMap ((λ kv, (YStr kv.1, SkillMetadata_dump kv.2))
                  <$> map_to_list (skills m))) ].
End Metadata.

(* ===================================================================== *)
(** ** The project directory *)
(* ===================================================================== *)

(** The two places the program writes to, below the project root:
    [.claude/skill-sources.yaml] and the directory [.claude/skills] (absent,
    or a map from the name of each file directly in it to the file's text).
    The directory holds regular files only, which is all the program ever
    puts there; permissions and other limits of the operating system are
    left out. *)
Record FS := mkFS {
  config_file : option string;
  skills_dir : option (gmap string string)
}.

(** Where the path [skills_dir / name] leads. *)
Inductive location :=
| Child (file : string)   (** the entry [file] of the skills directory *)
| Below (dir : string)    (** a path that goes on through the entry [dir] *)
| Outside.                (** a path the model does not follow *)

(** [skills_dir / name] as pathlib builds it and the system resolves it:
    empty and ["."] components of [name] are dropped, and the remaining
    ones are followed from left to right.  An absolute [name] replaces the
    directory, a leading [".."] leaves it, no component at all is the
    directory itself, and a NUL character is refused by the system calls:
    those are not followed here. *)
Definition locate (name : string) : location :=
  if negb (PyStr.count Ascii.zero name =? 0)%nat then Outside
  else if (match name with String c _ => Ascii.eqb c "/" | _ => false end)
  then Outside
  else
    match List.filter (λ c, negb (String.eqb c EmptyString || String.eqb c "."))
                      (PyStr.split "/"%char name) with
    | [] => Outside
    | c :: rest =>
        if String.eqb c ".." then Outside
        else match rest with [] => Child c | _ => Below c end
    end.

(** The text of the entry [file] of the skills directory, if there is one. *)
Definition read_file (file : string) (fs : FS) : option string :=
  skills_dir fs ≫= (.!! file).

(** The skills directory with the entry [file] holding [text]. *)
Definition write_file (file text : string) (fs : FS) : FS :=
  {| config_file := config_file fs;
     skills_dir := Some (<[file := text]> (default ∅ (skills_dir fs))) |}.

(** The skills directory without the entry [file]. *)
Definition delete_file (file : string) (fs : FS) : FS :=
  {| config_file := config_file fs;
     skills_dir := delete file <$> skills_dir fs |}.

(** [(skills_dir / name).exists()]: a path through an entry is not there,
    because no entry is a directory. *)
Definition path_exists (name : string) : M FS bool := λ fs,
  match locate name with
  | Child file => (Ok (bool_decide (is_Some (read_file file fs))), fs)
  | Below _ => (Ok false, fs)
  | Outside => (Raise Unmodelled, fs)
  end.

(** [open(skills_dir / name, "w")] followed by one [write], the skills
    directory being there: a path through an entry fails, with
    [NotADirectoryError] when the entry exists (it is a regular file) and
    [FileNotFoundError] when it does not. *)
Definition open_write (name text : string) : M FS unit := λ fs,
  match locate name with
  | Child file => (Ok tt, write_file file text fs)
  | Below dir =>
      (Raise (if bool_decide (is_Some (read_file dir fs))
              then NotADirectoryError else FileNotFoundError), fs)
  | Outside => (Raise Unmodelled, fs)
  end.

(** [(skills_dir / name).unlink()] *)
Definition unlink (name : string) : M FS unit := λ fs,
  match locate name with
  | Child file =>
      if bool_decide (is_Some (read_file file fs))
      then (Ok tt, delete_file file fs)
      else (Raise FileNotFoundError, fs)
  | Below dir =>
      (Raise (if bool_decide (is_Some (read_file dir fs))
              then NotADirectoryError else FileNotFoundError), fs)
  | Outside => (Raise Unmodelled, fs)
  end.

(* ===================================================================== *)
(** ** config.py *)
(* ===================================================================== *)

Section Config.
Context `{Yaml}.

(** [ConfigManager.load] *)
Definition load : M FS SkillConfig :=
  file ← gets config_file;
  match file with
  | None => raise FileNotFoundError
  | Some text =>
      match safe_load text with
      | None => raise YAMLError
      | Some doc =>
          let data := or_empty_dict doc in
          kw ← lift (kwargs data);
          match SkillConfig_validate kw with
          | Some config => mret config
          | None => raise (ValueError InvalidConfiguration)
          end
      end
  end.

(** [ConfigManager.save] *)
Definition save (config : SkillConfig) : M FS unit :=
  let data := SkillConfig_dump config in
  modify (λ fs, {| config_file := Some (safe_dump data);
                   skills_dir := skills_dir fs |}).

(** [list.remove(x)]: drops the first occurrence. *)
Fixpoint list_remove (x : string) (l : list string) : list string :=
  match l with
  | [] => []
  | y :: rest => if decide (x = y) then rest else y :: list_remove x rest
  end.

(** [ConfigManager.remove_source] *)
Definition remove_source (src : string) : M FS SkillConfig :=
  config ← load;
  if decide (src = default_source config) then
    raise (ValueError CannotRemoveDefault)
  else if decide (src ∈ allowed_sources config) then
    let config' := {| default_source := default_source config;
                      allowed_sources := list_remove src (allowed_sources config);
                      aliases := aliases config |} in
    save config';; mret config'
  else mret config.
End Config.

(* ===================================================================== *)
(** ** fetcher.py *)
(* ===================================================================== *)

(** What one [client.get(url)] gives: a response, or [httpx.RequestError]. *)
Inductive http_outcome :=
| Response (status_code : Z) (text : string)
| RequestError (detail : string).

(** What the fetcher does to the outside world: a [client.get(url)] or a
    [time.sleep(delay)]. *)
Inductive event :=
| Requested (url : string)
| Slept (delay : Q).

(** The network as the fetcher sees it: the server's answer to the k-th
    request, and the requests sent and delays slept so far, in the order in
    which they happened (oldest first). *)
Record Net := mkNet {
  server : nat → http_outcome;
  log : list event
}.

Definition requested (e : event) : option string :=
  match e with Requested url => Some url | Slept _ => None end.

Definition slept (e : event) : option Q :=
  match e with Slept delay => Some delay | Requested _ => None end.

(** The requests sent so far, and the delays slept so far. *)
Definition requests (w : Net) : list string := omap requested (log w).
Definition sleeps (w : Net) : list Q := omap slept (log w).

Definition client_get (url : string) : M Net http_outcome := λ w,
  (Ok (server w (length (requests w))),
   {| server := server w; log := log w ++ [Requested url] |}).

Definition time_sleep (delay : Q) : M Net unit :=
  modify (λ w, {| server := server w; log := log w ++ [Slept delay] |}).

Definition MAX_FILE_SIZE : N := 1024 * 1024.
Definition MAX_RETRIES : nat := 4.
Definition INITIAL_RETRY_DELAY : Q := 2 # 1.

(** How one pass through the body of the retry loop ends. *)
Inductive attempt_end :=
| Return (skill : Skill)
| Throw (e : exn)
| Continue (last_error : option exn).

Section Fetcher.
Context `{Frontmatter} `{Hashlib}.

(** [SkillFetcher._build_url] *)
Definition _build_url (src : SkillSource) (skill_name : string) : string :=
  let skill_name :=
    if negb (PyStr.endswith skill_name ".md") then skill_name +:+ ".md"
    else skill_name in
  "https://raw.githubusercontent.com/" +:+ owner src +:+ "/" +:+ repo src
    +:+ "/" +:+ branch src +:+ "/.claude/skills/" +:+ skill_name.

(** The fallback test of [_validate_content]:
    [any(line.strip() for line in content.split("\n"))]. *)
Definition any_nonblank_line (content : string) : bool :=
  existsb (λ line, PyStr.truthy (PyStr.strip line))
          (PyStr.split PyStr.LF content).

(** [SkillFetcher._validate_content] *)
Definition _validate_content (content url : string) : result unit :=
  if (MAX_FILE_SIZE <? N.of_nat (String.length content))%N then
    Raise (FetchError (FileTooLarge (String.length content)))
  else if negb (PyStr.truthy (PyStr.strip content)) then
    Raise (FetchError ContentEmpty)
  else
    match frontmatter_loads content with
    | Ok _ => Ok tt
    | Raise _ =>
        if negb (any_nonblank_line content) then
          Raise (FetchError ContentNotValid)
        else Ok tt
    end.

(** The [status_code == 200] branch of [fetch]. *)
Definition on_success (skill_name : string) (src : SkillSource)
    (validate : bool) (url text : string) : result Skill :=
  match (if validate then _validate_content text url else Ok tt) with
  | Raise e => Raise e
  | Ok _ =>
      match frontmatter_loads text with
      | Raise e => Raise e
      | Ok parsed =>
          let meta := match parsed with
                      | [] => Some None
                      | _ => Some <$> validate_str_dict (YMap parsed)
                      end in
          match meta with
          | None => Raise ValidationError
          | Some meta =>
              Ok {| name := skill_name; content := text;
                    source := full_name src; skill_branch := branch src;
                    metadata := meta |}
          end
      end
  end.

(** The body of the [try] statement for one attempt, applied to what
    [client.get] gave; [last_error] is the variable of that name. *)
Definition attempt_body (skill_name : string) (src : SkillSource)
    (validate : bool) (url : string) (last_error : option exn)
    (got : http_outcome) : attempt_end :=
  match got with
  | Response status_code text =>
      if (status_code =? 200)%Z then
        match on_success skill_name src validate url text with
        | Ok skill => Return skill
        | Raise e => Throw e
        end
      else if (status_code =? 404)%Z then
        Throw (FetchError (SkillNotFound skill_name (full_name src) (branch src)))
      else if (status_code =? 403)%Z then
        Throw (FetchError AccessForbidden)
      else if (500 <=? status_code)%Z then
        Continue (Some (FetchError (ServerError status_code)))
      else Throw (FetchError (UnexpectedStatus status_code))
  | RequestError detail =>
      Continue (Some (FetchError (NetworkError detail)))
  end.

(** The [for attempt in range(MAX_RETRIES)] loop and the statements after
    it, over the attempts still to run. *)
Fixpoint fetch_loop (skill_name : string) (src : SkillSource)
    (validate : bool) (url : string) (attempts : list nat)
    (last_error : option exn) : M Net Skill :=
  match attempts with
  | [] =>
      match last_error with
      | Some e => raise e
      | None => raise (FetchError RetriesFailed)
      end
  | attempt :: rest =>
      got ← client_get url;
      match attempt_body skill_name src validate url last_error got with
      | Return skill => mret skill
      | Throw e => raise e
      | Continue last_error =>
          (if (attempt <? MAX_RETRIES - 1)%nat then
             time_sleep (INITIAL_RETRY_DELAY * inject_Z (2 ^ Z.of_nat attempt))%Q
           else mret tt);;
          fetch_loop skill_name src validate url rest last_error
      end
  end.

(** [SkillFetcher.fetch] *)
Definition fetch (skill_name : string) (src : SkillSource)
    (validate : bool) : M Net Skill :=
  let url := _build_url src skill_name in
  fetch_loop skill_name src validate url (seq 0 MAX_RETRIES) None.

(** [SkillFetcher.compute_checksum] *)
Definition compute_checksum (content : string) : string :=
  sha256_hexdigest content.
End Fetcher.

(** The failures the claims call retryable: a status of 500 or more, or a
    transport error; and the error [fetch] records for each. *)
Definition retryable (got : http_outcome) : bool :=
  match got with
  | Response status_code _ => (500 <=? status_code)%Z
  | RequestError _ => true
  end.

Definition recorded_error (got : http_outcome) : exn :=
  match got with
  | Response status_code _ => FetchError (ServerError status_code)
  | RequestError detail => FetchError (NetworkError detail)
  end.

(** The state once the given requests and sleeps have followed, in that
    order. *)
Definition after (w : Net) (events : list event) : Net :=
  {| server := server w; log := log w ++ events |}.

(** What four attempts for [url] do when none of them ends the loop: a
    request, then the back-off delay, three times, and a last request with
    no sleep after it. *)
Definition attempts_trace (url : string) : list event :=
  [ Requested url; Slept (2 # 1); Requested url; Slept (4 # 1);
    Requested url; Slept (8 # 1); Requested url ].

(* ===================================================================== *)
(** ** installer.py *)
(* ===================================================================== *)

Inductive ConflictResolution := SKIP | OVERWRITE | PROMPT.

Definition METADATA_FILE : string := ".metadata.yaml".

(** The name normalisation repeated in [remove], [get_skill_info] and
    [is_installed]. *)
Definition ensure_md (skill_name : string) : string :=
  if negb (PyStr.endswith skill_name ".md") then skill_name +:+ ".md"
  else skill_name.

Section Installer.
Context `{Yaml} `{Hashlib} `{Datetime}.

(** [SkillInstaller._ensure_skills_dir] *)
Definition _ensure_skills_dir : M FS unit :=
  modify (λ fs, {| config_file := config_file fs;
                   skills_dir := Some (default ∅ (skills_dir fs)) |}).

(** [SkillInstaller._load_metadata] *)
Definition _load_metadata : M FS SkillsMetadata :=
  file ← gets (read_file METADATA_FILE);
  match file with
  | None => mret {| skills := ∅ |}
  | Some text =>
      match safe_load text with
      | None => raise YAMLError
      | Some doc =>
          let data := or_empty_dict doc in
          kw ← lift (kwargs data);
          match SkillsMetadata_validate kw with
          | Some m => mret m
          | None => raise ValidationError
          end
      end
  end.

(** [SkillInstaller._save_metadata] *)
Definition _save_metadata (m : SkillsMetadata) : M FS unit :=
  _ensure_skills_dir;;
  let data := SkillsMetadata_dump m in
  modify (write_file METADATA_FILE (safe_dump data)).

(** The record [install] stores for a skill. *)
Definition record_of (skill : Skill) (now : datetime) : SkillMetadata :=
  {| md_source := source skill; fetched_at := now;
     md_branch := skill_branch skill;
     checksum := compute_checksum (content skill) |}.

(** [SkillInstaller.install]; [now] is what [datetime.now()] reads.  Both
    branches of the [fetcher] conditional call the same
    [compute_checksum]. *)
Definition install (skill : Skill) (conflict_resolution : ConflictResolution)
    (now : datetime) : M FS bool :=
  _ensure_skills_dir;;
  present ← path_exists (filename skill);
  match present, conflict_resolution with
  | true, SKIP => mret false
  | true, PROMPT => raise FileExistsError
  | _, _ =>
      open_write (filename skill) (content skill);;
      m ← _load_metadata;
      let m' := {| skills := <[filename skill := record_of skill now]> (skills m) |} in
      _save_metadata m';;
      mret true
  end.

(** The project directory after [install] has written [skill] to the
    entry [file] and the index [m] with the skill's record. *)
Definition installed (fs : FS) (file : string) (skill : Skill)
    (now : datetime) (m : SkillsMetadata) : FS :=
  write_file METADATA_FILE
    (safe_dump (SkillsMetadata_dump
       {| skills := <[filename skill := record_of skill now]> (skills m) |}))
    (write_file file (content skill) fs).

(** [SkillInstaller.get_skill_info] *)
Definition get_skill_info (skill_name : string) : M FS (option SkillMetadata) :=
  let skill_name := ensure_md skill_name in
  m ← _load_metadata;
  mret (skills m !! skill_name).

(** [SkillInstaller.needs_update] *)
Definition needs_update (skill_name new_checksum : string) : M FS bool :=
  info ← get_skill_info skill_name;
  match info with
  | None => mret false
  | Some info => mret (bool_decide (checksum info ≠ new_checksum))
  end.
End Installer.

(* ===================================================================== *)
(** ** config.py, the remaining operations *)
(* ===================================================================== *)

(** [try: body  except E: handler], with [catches] telling which exceptions
    are instances of [E]. *)
Definition try_except {S A} (body : M S A) (catches : exn → bool)
    (handler : M S A) : M S A := λ s,
  match body s with
  | (Raise e, s') => if catches e then handler s' else (Raise e, s')
  | finished => finished
  end.

Definition is_FileNotFoundError (e : exn) : bool :=
  match e with FileNotFoundError => true | _ => false end.

Definition DEFAULT_SOURCE : string := "mojzis/marimo-template".

(** The YAML library reads back the document it has written. *)
Definition reads_back `{Yaml} (doc : yaml) : Prop :=
  safe_load (safe_dump doc) = Some doc.

(** The project directory once [save] has written [config]. *)
Definition saved `{Yaml} (config : SkillConfig) (fs : FS) : FS :=
  {| config_file := Some (safe_dump (SkillConfig_dump config));
     skills_dir := skills_dir fs |}.

(** What both field validators of [SkillConfig] require together. *)
Definition sources_ok (config : SkillConfig) : bool :=
  forallb source_format_ok (allowed_sources config)
  && source_format_ok (default_source config).

Section ConfigOperations.
Context `{Yaml}.

(** [ConfigManager.init] *)
Definition init (default_source : option string) : M FS SkillConfig :=
  file ← gets config_file;
  match file with
  | Some _ => raise FileExistsError
  | None =>
      let src := match default_source with
                 | Some s => if PyStr.truthy s then s else DEFAULT_SOURCE
                 | None => DEFAULT_SOURCE
                 end in
      match SkillConfig_validate
              [ ("default_source", YStr src);
                ("allowed_sources", YSeq [YStr src]);
                ("aliases", YMap []) ] with
      | None => raise ValidationError
      | Some config => save config;; mret config
      end
  end.

(** [ConfigManager.load_or_init] *)
Definition load_or_init (default_source : option string) : M FS SkillConfig :=
  try_except load is_FileNotFoundError (init default_source).

(** [ConfigManager.add_source] *)
Definition add_source (src : string) : M FS SkillConfig :=
  config ← load;
  if decide (src ∉ allowed_sources config) then
    let config' := {| default_source := default_source config;
                      allowed_sources := allowed_sources config ++ [src];
                      aliases := aliases config |} in
    save config';; mret config'
  else mret config.

(** [ConfigManager.add_alias] *)
Definition add_alias (alias skill_name : string) : M FS SkillConfig :=
  config ← load;
  let config' := {| default_source := default_source config;
                    allowed_sources := allowed_sources config;
                    aliases := <[alias := skill_name]> (aliases config) |} in
  save config';; mret config'.

(** [ConfigManager.resolve_alias] *)
Definition resolve_alias (skill_name : string) : M FS string :=
  try_except
    (config ← load; mret (default skill_name (aliases config !! skill_name)))
    is_FileNotFoundError
    (mret skill_name).

(** [ConfigManager.is_source_allowed] *)
Definition is_source_allowed (src : string) : M FS bool :=
  try_except
    (config ← load; mret (bool_decide (src ∈ allowed_sources config)))
    is_FileNotFoundError
    (mret false).
End ConfigOperations.

(* ===================================================================== *)
(** ** installer.py, the remaining operations *)
(* ===================================================================== *)

Section InstallerOperations.
Context `{Yaml} `{Datetime}.

(** [SkillInstaller.remove] *)
Definition remove (skill_name : string) : M FS bool :=
  let skill_name := ensure_md skill_name in
  present ← path_exists skill_name;
  if negb present then mret false
  else
    unlink skill_name;;
    m ← _load_metadata;
    (if decide (is_Some (skills m !! skill_name)) then
       _save_metadata {| skills := delete skill_name (skills m) |}
     else mret tt);;
    mret true.

(** [SkillInstaller.list_skills] *)
Definition list_skills : M FS (gmap string SkillMetadata) :=
  m ← _load_metadata; mret (skills m).

(** [SkillInstaller.is_installed] *)
Definition is_installed (skill_name : string) : M FS bool :=
  let skill_name := ensure_md skill_name in
  path_exists skill_name.

(** The YAML and datetime libraries read back what they have written. *)
Definition datetime_reads_back : Prop :=
  ∀ t, validate_datetime (YStr (isoformat t)) = Some t.

(** The project directory once [_save_metadata] has written [m]. *)
Definition index_saved (m : SkillsMetadata) (fs : FS) : FS :=
  write_file METADATA_FILE (safe_dump (SkillsMetadata_dump m)) fs.
End InstallerOperations.

(* ===================================================================== *)
(** ** Concrete libraries and inputs used to exercise the theorems *)
(* ===================================================================== *)

Module Demo.

(** A flow-style printer standing for [yaml.safe_dump]. *)
Fixpoint print (y : yaml) : string :=
  match y with
  | YNull => "null"
  | YBool b => if b then "true" else "false"
  | YInt n => pretty n
  | YStr s => "'" +:+ s +:+ "'"
  | YOther _ => "0.5"
  | YSeq items =>
      "[" +:+ (fix go l :=
                 match l with
                 | [] => EmptyString
                 | x :: r => print x +:+ "," +:+ go r
                 end) items +:+ "]"
  | YMap items =>
      "{" +:+ (fix go l :=
                 match l with
                 | [] => EmptyString
                 | (k, v) :: r => print k +:+ ":" +:+ print v +:+ "," +:+ go r
                 end) items +:+ "}"
  end.

Definition clock : Datetime :=
  {| datetime := string; isoformat := id; validate_datetime := as_str |}.

Definition hashlib : Hashlib :=
  {| sha256_hexdigest := λ s, "sha256:" +:+ s |}.

Definition config : SkillConfig :=
  {| default_source := "acme/skills";
     allowed_sources := ["acme/skills"; "other/repo"];
     aliases := {[ "marimo" := "marimo-notebook" ]} |}.

Definition skill : Skill :=
  {| name := "skill-a"; content := "# Skill A"; source := "acme/skills";
     skill_branch := "main"; metadata := None |}.

Definition index : @SkillsMetadata clock :=
  {| skills := {[ "skill-a.md" :=
                    @record_of hashlib clock skill "2024-01-01T10:00:00" ]} |}.

(** The documents the reader below knows. *)
Definition documents : list yaml :=
  [ SkillConfig_dump config;
    @SkillsMetadata_dump clock index;
    YSeq [YStr "acme/skills"];
    YNull ].

(** A reader standing for [yaml.safe_load]: it inverts [print] on
    [documents] and rejects every other text. *)
Definition yaml_lib : Yaml :=
  {| safe_load := λ text, List.find (λ d, String.eqb (print d) text) documents;
     safe_dump := print |}.

(** A body whose front matter is not YAML, and a parser that rejects it. *)
Definition bad_front_matter : string :=
  "---" +:+ String PyStr.LF ("title: [unclosed" +:+ String PyStr.LF
    ("---" +:+ String PyStr.LF "# Skill A")).

Definition frontmatter_lib : Frontmatter :=
  {| frontmatter_loads := λ text,
       if String.eqb text bad_front_matter then Raise YAMLError else Ok [] |}.

Definition acme : SkillSource :=
  {| owner := "acme"; repo := "skills"; branch := "main" |}.

(** A network whose server answers every request with [answer]. *)
Definition net (answer : http_outcome) : Net :=
  {| server := λ _, answer; log := [] |}.

Definition fresh : FS := {| config_file := None; skills_dir := None |}.

Definition with_config (doc : yaml) : FS :=
  {| config_file := Some (print doc); skills_dir := None |}.

End Demo.

(** Further inputs: a reader that knows the documents the operations on
    configs and on the index write in the examples. *)
Module Sample.

Definition initial : SkillConfig :=
  {| default_source := "acme/skills"; allowed_sources := ["acme/skills"];
     aliases := ∅ |}.

Definition with_source (src : string) : SkillConfig :=
  {| default_source := default_source Demo.config;
     allowed_sources := allowed_sources Demo.config ++ [src];
     aliases := aliases Demo.config |}.

Definition without_other : SkillConfig :=
  {| default_source := "acme/skills"; allowed_sources := ["acme/skills"];
     aliases := aliases Demo.config |}.

Definition with_alias : SkillConfig :=
  {| default_source := default_source Demo.config;
     allowed_sources := allowed_sources Demo.config;
     aliases := <["nb" := "notebook"]> (aliases Demo.config) |}.

Definition skill_v2 : Skill :=
  {| name := "skill-a.md"; content := "# Skill A, second edition";
     source := "acme/skills"; skill_branch := "dev"; metadata := None |}.

Definition index_v2 : @SkillsMetadata Demo.clock :=
  {| skills := {[ "skill-a.md" :=
                    @record_of Demo.hashlib Demo.clock skill_v2
                      "2024-03-03T09:00:00" ]} |}.

Definition empty_index : @SkillsMetadata Demo.clock := {| skills := ∅ |}.

(** A skill named through a directory that is not there, and a second
    spelling of [Demo.skill]'s file with other content. *)
Definition nested_skill : Skill :=
  {| name := "sub/skill"; content := "# Nested"; source := "acme/skills";
     skill_branch := "main"; metadata := None |}.

Definition respelled_skill : Skill :=
  {| name := "./skill-a"; content := "# Other content";
     source := "acme/skills"; skill_branch := "main"; metadata := None |}.

Definition documents : list yaml :=
  [ SkillConfig_dump Demo.config;
    SkillConfig_dump initial;
    SkillConfig_dump (with_source "new/repo");
    SkillConfig_dump (with_source "invalid");
    SkillConfig_dump without_other;
    SkillConfig_dump with_alias;
    @SkillsMetadata_dump Demo.clock Demo.index;
    @SkillsMetadata_dump Demo.clock index_v2;
    @SkillsMetadata_dump Demo.clock empty_index;
    YNull ].

Definition yaml_lib : Yaml :=
  {| safe_load := λ text,
       List.find (λ d, String.eqb (Demo.print d) text) documents;
     safe_dump := Demo.print |}.

(** A project directory whose config file holds [config]. *)
Definition project (config : SkillConfig) : FS :=
  {| config_file := Some (Demo.print (SkillConfig_dump config));
     skills_dir := None |}.

(** A skills directory holding [skill-a.md] and, as sidecar, [text]. *)
Definition skills_with_sidecar (text : string) : FS :=
  {| config_file := None;
     skills_dir := Some {[ "skill-a.md" := "# Skill A";
                           ".metadata.yaml" := text ]} |}.

End Sample.

(* ===================================================================== *)
(** ** Facts about the string primitives *)
(* ===================================================================== *)

Example split_owner_repo : PyStr.split "/"%char "owner/repo" = ["owner"; "repo"].
Proof. reflexivity. Qed.

Example split_empty : PyStr.split "/"%char EmptyString = [EmptyString].
Proof. reflexivity. Qed.

Example split_trailing : PyStr.split "/"%char "a/b/" = ["a"; "b"; EmptyString].
Proof. reflexivity. Qed.

Example strip_both_ends : PyStr.strip "  a b  " = "a b".
Proof. reflexivity. Qed.

Lemma split_length sep s : length (PyStr.split sep s) = S (PyStr.count sep s).
Proof.
  induction s as [|c rest IH]; simpl; [done|].
  destruct (Ascii.eqb c sep); simpl; [by rewrite IH|].
  destruct (PyStr.split sep rest); simpl in *; lia.
Qed.

Lemma split_one sep s seg : PyStr.split sep s = [seg] → s = seg.
Proof.
  revert seg. induction s as [|c rest IH]; simpl; intros seg Hs.
  - congruence.
  - pose proof (split_length sep rest) as Hlen.
    destruct (Ascii.eqb c sep).
    + injection Hs as _ Hnil. rewrite Hnil in Hlen. done.
    + destruct (PyStr.split sep rest) as [|seg' segs]; [done|].
      injection Hs as <- ->. by rewrite (IH seg').
Qed.

Lemma split_two sep s a b :
  PyStr.split sep s = [a; b] → s = a +:+ String sep b.
Proof.
  revert a. induction s as [|c rest IH]; simpl; intros a Hs; [done|].
  destruct (Ascii.eqb c sep) eqn:Hc.
  - apply Ascii.eqb_eq in Hc as ->.
    injection Hs as <- Hrest. by rewrite (split_one _ _ _ Hrest).
  - destruct (PyStr.split sep rest) as [|seg segs]; [done|].
    injection Hs as <- ->. simpl. by rewrite (IH seg).
Qed.

Lemma lstrip_nonspace s : PyStr.has_nonspace (PyStr.lstrip s) = PyStr.has_nonspace s.
Proof.
  induction s as [|c rest IH]; simpl; [done|].
  destruct (PyStr.isspace c) eqn:Hc; simpl; [done|by rewrite Hc].
Qed.

Lemma rstrip_truthy s : PyStr.truthy (PyStr.rstrip s) = PyStr.has_nonspace s.
Proof.
  induction s as [|c rest IH]; simpl; [done|].
  destruct (PyStr.rstrip rest); simpl in *; rewrite <- IH.
  - by destruct (PyStr.isspace c).
  - by rewrite orb_true_r.
Qed.

Lemma strip_truthy s : PyStr.truthy (PyStr.strip s) = PyStr.has_nonspace s.
Proof. unfold PyStr.strip. by rewrite rstrip_truthy, lstrip_nonspace. Qed.

Lemma split_lines_nonspace s :
  existsb PyStr.has_nonspace (PyStr.split PyStr.LF s) = PyStr.has_nonspace s.
Proof.
  induction s as [|c rest IH]; simpl; [done|].
  destruct (Ascii.eqb c PyStr.LF) eqn:Hc; simpl.
  - apply Ascii.eqb_eq in Hc as ->. by rewrite IH.
  - destruct (PyStr.split PyStr.LF rest) as [|seg segs]; simpl in *;
      rewrite <- IH; by rewrite ?orb_false_r, ?orb_assoc.
Qed.

Lemma any_nonblank_line_strip content :
  any_nonblank_line content = PyStr.truthy (PyStr.strip content).
Proof.
  unfold any_nonblank_line.
  rewrite strip_truthy, <- split_lines_nonspace.
  induction (PyStr.split PyStr.LF content) as [|l ls IH]; simpl; [done|].
  by rewrite strip_truthy, IH.
Qed.

(* ===================================================================== *)
(** ** Source identifiers *)
(* ===================================================================== *)

(** C1 (as the code has it): [from_string] looks only at the number of
    parts.  It returns a source exactly when the input holds one ['/'], the
    source then spells the input back and carries the given branch, with no
    condition on the two segments; every other input raises the
    [ValueError] naming the input. *)
Theorem from_string_one_slash (s b : string) :
  match from_string s b with
  | Ok src =>
      PyStr.count "/"%char s = 1 ∧ full_name src = s ∧ branch src = b
      ∧ PyStr.split "/"%char s = [owner src; repo src]
  | Raise e =>
      PyStr.count "/"%char s ≠ 1 ∧ e = ValueError (InvalidSourceFormat s)
  end.
Proof.
  unfold from_string.
  pose proof (split_length "/"%char s) as Hlen.
  destruct (decide _) as [Hne|Heq].
  - split; [lia|done].
  - apply dec_stable in Heq.
    destruct (PyStr.split "/"%char s) as [|o [|r [|]]] eqn:Hs; simplify_eq/=.
    repeat split; [lia|].
    unfold full_name; simpl. by rewrite (split_two _ _ _ _ Hs).
Qed.

(** C1, the claim as worded fails: ["owner/"] has an empty segment and is
    accepted, with an empty repository name. *)
Lemma from_string_accepts_empty_segment :
  spec_malformed "owner/" = true
  ∧ from_string "owner/" "main"
    = Ok {| owner := "owner"; repo := EmptyString; branch := "main" |}.
Proof. split; reflexivity. Qed.

(* ===================================================================== *)
(** ** Content validation *)
(* ===================================================================== *)

(** C9: once [content.strip()] is non-empty some line has non-blank content,
    so the fallback test never fires: [_validate_content] raises only the
    size error or the emptiness error, whatever the front-matter parser
    does. *)
Theorem validate_content_never_invalid `{Frontmatter} (text url : string) :
  (PyStr.truthy (PyStr.strip text) = true → any_nonblank_line text = true)
  ∧ _validate_content text url ≠ Raise (FetchError ContentNotValid)
  ∧ (∀ e, _validate_content text url = Raise e →
          e = FetchError (FileTooLarge (String.length text))
          ∨ e = FetchError ContentEmpty).
Proof.
  split; [by rewrite any_nonblank_line_strip|].
  unfold _validate_content.
  destruct (_ <? _)%N; [split; [done|intros e [= <-]; by left]|].
  destruct (PyStr.truthy (PyStr.strip text)) eqn:Hstrip; simpl;
    [|split; [done|intros e [= <-]; by right]].
  rewrite any_nonblank_line_strip, Hstrip; simpl.
  destruct (frontmatter_loads text); by split.
Qed.

Lemma validate_content_never_invalid_witness :
  PyStr.truthy (PyStr.strip Demo.bad_front_matter) = true
  ∧ any_nonblank_line Demo.bad_front_matter = true
  ∧ @_validate_content Demo.frontmatter_lib Demo.bad_front_matter "u" = Ok tt.
Proof.
  pose proof (@validate_content_never_invalid Demo.frontmatter_lib
                Demo.bad_front_matter "u") as [Hline _].
  split; [reflexivity|]. split; [apply Hline; reflexivity|reflexivity].
Defined.

(* ===================================================================== *)
(** ** The retry loop *)
(* ===================================================================== *)

Lemma after_after (w : Net) (evs evs' : list event) :
  after (after w evs) evs' = after w (evs ++ evs').
Proof. unfold after; cbn. by rewrite <- app_assoc. Qed.

Lemma after_next (w : Net) (evs : list event) :
  server (after w evs) (length (requests (after w evs)))
  = server w (length (requests w) + length (omap requested evs)).
Proof. unfold after, requests; cbn. by rewrite omap_app, length_app. Qed.

(** The first [2 k] events of the trace hold [k] requests, and one more
    failed attempt extends them by its request and its back-off. *)
Lemma attempts_trace_requests (url : string) (k : nat) :
  (k ≤ 4)%nat →
  length (omap requested (take (2 * k) (attempts_trace url))) = k.
Proof. destruct k as [|[|[|[|[|k]]]]]; intros; try lia; reflexivity. Qed.

Lemma attempts_trace_failed (url : string) (k : nat) :
  (k < 4)%nat →
  (take (2 * k) (attempts_trace url)
   ++ Requested url
      :: (if (k <? MAX_RETRIES - 1)%nat
          then [Slept (INITIAL_RETRY_DELAY * inject_Z (2 ^ Z.of_nat k))%Q]
          else []))%list
  = take (2 * S k) (attempts_trace url).
Proof. destruct k as [|[|[|[|k]]]]; intros; try lia; reflexivity. Qed.

Lemma attempts_trace_ended (url : string) (k : nat) :
  (k < 4)%nat →
  (take (2 * k) (attempts_trace url) ++ [Requested url])%list
  = take (2 * k + 1) (attempts_trace url).
Proof. destruct k as [|[|[|[|k]]]]; intros; try lia; reflexivity. Qed.

Section FetchFacts.
Context `{Frontmatter}.
Variables (skill_name : string) (src : SkillSource) (validate : bool).

Lemma attempt_body_retryable last got :
  retryable got = true →
  attempt_body skill_name src validate (_build_url src skill_name) last got
  = Continue (Some (recorded_error got)).
Proof.
  destruct got as [st body|detail]; simpl; [|done].
  intros Hst%Z.leb_le.
  by rewrite !(proj2 (Z.eqb_neq st _)) , (proj2 (Z.leb_le 500 st)) by lia.
Qed.

(** One pass through the loop body, whatever the server answers: the
    request comes first; a result or an exception ends the loop there; a
    recorded failure is followed by the back-off, unless it was the last
    attempt, and then by the next pass. *)
Lemma fetch_loop_step attempt rest last w :
  fetch_loop skill_name src validate (_build_url src skill_name)
    (attempt :: rest) last w
  = match attempt_body skill_name src validate (_build_url src skill_name)
            last (server w (length (requests w))) with
    | Return skill => (Ok skill, after w [Requested (_build_url src skill_name)])
    | Throw e => (Raise e, after w [Requested (_build_url src skill_name)])
    | Continue last' =>
        fetch_loop skill_name src validate (_build_url src skill_name) rest last'
          (after w
             (Requested (_build_url src skill_name)
              :: (if (attempt <? MAX_RETRIES - 1)%nat
                  then [Slept (INITIAL_RETRY_DELAY
                               * inject_Z (2 ^ Z.of_nat attempt))%Q]
                  else [])))
    end.
Proof.
  cbn [fetch_loop]. unfold mbind, M_bind, client_get.
  destruct (attempt_body _ _ _ _ _ _); [done|done|].
  destruct (attempt <? MAX_RETRIES - 1)%nat; unfold after; cbn;
    by rewrite <- ?app_assoc.
Qed.

(** Where the loop stands after [k] failed attempts out of the four. *)
Lemma fetch_after_failures (k : nat) (w : Net) :
  (k ≤ 4)%nat →
  (∀ j, (j < k)%nat → retryable (server w (length (requests w) + j)) = true) →
  fetch skill_name src validate w
  = fetch_loop skill_name src validate (_build_url src skill_name)
      (seq k (4 - k))
      (match k with
       | O => None
       | S j => Some (recorded_error (server w (length (requests w) + j)))
       end)
      (after w (take (2 * k) (attempts_trace (_build_url src skill_name)))).
Proof.
  intros Hk Hall. induction k as [|k IH].
  - unfold fetch, after; cbn. rewrite app_nil_r. by destruct w.
  - rewrite IH by (try lia; intros; apply Hall; lia).
    replace (4 - k)%nat with (S (4 - S k)) by lia. cbn [seq].
    rewrite fetch_loop_step, after_next, attempts_trace_requests by lia.
    rewrite attempt_body_retryable by (apply Hall; lia).
    by rewrite after_after, attempts_trace_failed by lia.
Qed.

(** After [k] retryable failures an answer that is not retryable ends
    [fetch] at its request: the trace stops there, with no sleep after it,
    and the result is that of the attempt. *)
Lemma fetch_stops_at (k : nat) (w : Net) :
  (k ≤ 3)%nat →
  (∀ j, (j < k)%nat → retryable (server w (length (requests w) + j)) = true) →
  retryable (server w (length (requests w) + k)) = false →
  fetch skill_name src validate w
  = (match attempt_body skill_name src validate (_build_url src skill_name)
             None (server w (length (requests w) + k)) with
     | Return skill => Ok skill
     | Throw e => Raise e
     | Continue _ => Raise (FetchError RetriesFailed)
     end,
     after w (take (2 * k + 1) (attempts_trace (_build_url src skill_name)))).
Proof.
  intros Hk Hall Hstop.
  rewrite (fetch_after_failures k) by (done || lia).
  replace (4 - k)%nat with (S (3 - k)) by lia. cbn [seq].
  rewrite fetch_loop_step, after_next, attempts_trace_requests by lia.
  rewrite after_after, attempts_trace_ended by lia.
  destruct (server w (length (requests w) + k)) as [st body|detail];
    [|done]. cbn in *.
  destruct (st =? 200)%Z; [by destruct (on_success _ _ _ _ _)|].
  destruct (st =? 404)%Z; [done|]. destruct (st =? 403)%Z; [done|].
  by rewrite Hstop.
Qed.
End FetchFacts.

(** C3: when the next four answers are all retryable failures, [fetch] does
    exactly this, in this order: a request for the skill's URL, a sleep of
    2.0, a second request, a sleep of 4.0, a third request, a sleep of 8.0
    and a fourth request, with nothing after it; it then raises the error
    recorded for the fourth answer.  With no attempt made and nothing
    recorded the loop ends in the generic error. *)
Theorem fetch_all_retryable `{Frontmatter} (skill_name : string)
    (src : SkillSource) (validate : bool) (w : Net) :
  (∀ k, (k < 4)%nat → retryable (server w (length (requests w) + k)) = true) →
  fetch skill_name src validate w
  = (Raise (recorded_error (server w (length (requests w) + 3))),
     after w [ Requested (_build_url src skill_name); Slept (2 # 1);
               Requested (_build_url src skill_name); Slept (4 # 1);
               Requested (_build_url src skill_name); Slept (8 # 1);
               Requested (_build_url src skill_name) ])
  ∧ fetch_loop skill_name src validate (_build_url src skill_name) [] None w
    = (Raise (FetchError RetriesFailed), w).
Proof.
  intros Hall. split; [|done].
  by rewrite (fetch_after_failures _ _ _ 4) by (done || lia).
Qed.

Lemma fetch_all_retryable_witness :
  @fetch Demo.frontmatter_lib "skill-a" Demo.acme true
     (Demo.net (Response 503 "busy"))
  = (Raise (FetchError (ServerError 503)),
     {| server := λ _, Response 503 "busy";
        log :=
          [ Requested "https://raw.githubusercontent.com/acme/skills/main/.claude/skills/skill-a.md";
            Slept (2 # 1);
            Requested "https://raw.githubusercontent.com/acme/skills/main/.claude/skills/skill-a.md";
            Slept (4 # 1);
            Requested "https://raw.githubusercontent.com/acme/skills/main/.claude/skills/skill-a.md";
            Slept (8 # 1);
            Requested "https://raw.githubusercontent.com/acme/skills/main/.claude/skills/skill-a.md" ] |}).
Proof.
  refine (proj1 (@fetch_all_retryable Demo.frontmatter_lib "skill-a" Demo.acme
                   true (Demo.net (Response 503 "busy")) _)).
  intros k _. reflexivity.
Defined.

(** C4: when the first answer has status 404, [fetch] raises the not-found
    error after that one request: no further request and no sleep. *)
Theorem fetch_404_no_retry `{Frontmatter} (skill_name : string)
    (src : SkillSource) (validate : bool) (w : Net) (body : string) :
  server w (length (requests w)) = Response 404 body →
  fetch skill_name src validate w
  = (Raise (FetchError (SkillNotFound skill_name (full_name src) (branch src))),
     after w [Requested (_build_url src skill_name)]).
Proof.
  intros Hgot. unfold fetch, MAX_RETRIES. cbn [seq].
  by rewrite fetch_loop_step, Hgot.
Qed.

Lemma fetch_404_no_retry_witness :
  @fetch Demo.frontmatter_lib "missing" Demo.acme true
     (Demo.net (Response 404 "404: Not Found"))
  = (Raise (FetchError (SkillNotFound "missing" "acme/skills" "main")),
     {| server := λ _, Response 404 "404: Not Found";
        log :=
          [Requested "https://raw.githubusercontent.com/acme/skills/main/.claude/skills/missing.md"] |}).
Proof.
  apply (@fetch_404_no_retry Demo.frontmatter_lib "missing" Demo.acme true
           (Demo.net (Response 404 "404: Not Found")) "404: Not Found").
  reflexivity.
Defined.

(** C2, where the code departs from the claim: a body that passes
    validation although its front matter does not parse makes [fetch] fail,
    because [fetch] parses the front matter a second time outside any
    handler; the parser's exception leaves [fetch] after one request. *)
Theorem fetch_front_matter_failure_escapes `{Frontmatter} (skill_name : string)
    (src : SkillSource) (w : Net) (text : string) (e : exn) :
  server w (length (requests w)) = Response 200 text →
  (N.of_nat (String.length text) <= MAX_FILE_SIZE)%N →
  PyStr.truthy (PyStr.strip text) = true →
  frontmatter_loads text = Raise e →
  _validate_content text (_build_url src skill_name) = Ok tt
  ∧ any_nonblank_line text = true
  ∧ fetch skill_name src true w
    = (Raise e, after w [Requested (_build_url src skill_name)]).
Proof.
  intros Hgot Hsize Hstrip Hfm.
  assert (_validate_content text (_build_url src skill_name) = Ok tt) as Hval.
  { unfold _validate_content.
    rewrite (proj2 (N.ltb_ge _ _)) by done.
    by rewrite Hstrip, Hfm, any_nonblank_line_strip, Hstrip. }
  split; [done|]. split; [by rewrite any_nonblank_line_strip|].
  unfold fetch, MAX_RETRIES. cbn [seq].
  rewrite fetch_loop_step, Hgot.
  cbn [attempt_body Z.eqb Pos.eqb]. unfold on_success. by rewrite Hval, Hfm.
Qed.

Lemma fetch_front_matter_failure_escapes_witness :
  @fetch Demo.frontmatter_lib "skill-a" Demo.acme true
     (Demo.net (Response 200 Demo.bad_front_matter))
  = (Raise YAMLError,
     after (Demo.net (Response 200 Demo.bad_front_matter))
       [Requested (@_build_url Demo.acme "skill-a")]).
Proof.
  refine (proj2 (proj2 (@fetch_front_matter_failure_escapes Demo.frontmatter_lib
    "skill-a" Demo.acme (Demo.net (Response 200 Demo.bad_front_matter))
    Demo.bad_front_matter YAMLError _ _ _ _))).
  - reflexivity.
  - vm_compute. discriminate.
  - reflexivity.
  - reflexivity.
Defined.

(* ===================================================================== *)
(** ** The configuration store *)
(* ===================================================================== *)

Lemma mapM_as_str (l : list string) : mapM as_str (YStr <$> l) = Some l.
Proof.
  induction l as [|x l IH]; [done|].
  rewrite fmap_cons. cbn [mapM as_str]. by rewrite IH.
Qed.

Lemma mapM_as_str_item (l : list (string * string)) :
  mapM as_str_item ((λ kv, (YStr kv.1, YStr kv.2)) <$> l) = Some l.
Proof.
  induction l as [|[k v] l IH]; [done|].
  rewrite fmap_cons. cbn [mapM]. by rewrite IH.
Qed.

Lemma validate_dump_str_dict (m : gmap string string) :
  validate_str_dict (dump_str_dict m) = Some m.
Proof.
  unfold validate_str_dict, dump_str_dict.
  rewrite mapM_as_str_item. simpl. by rewrite list_to_map_to_list.
Qed.

(** Validation accepts what [model_dump] produced from a config whose
    sources have the accepted shape, and gives that config back. *)
Lemma SkillConfig_validate_dump (c : SkillConfig) :
  source_format_ok (default_source c) = true →
  forallb source_format_ok (allowed_sources c) = true →
  ∃ kw, kwargs (or_empty_dict (SkillConfig_dump c)) = Ok kw
        ∧ SkillConfig_validate kw = Some c.
Proof.
  intros Hds Hsrcs.
  exists [("default_source", YStr (default_source c));
          ("allowed_sources", YSeq (YStr <$> allowed_sources c));
          ("aliases", dump_str_dict (aliases c))].
  split; [reflexivity|].
  unfold SkillConfig_validate.
  change (kwarg "default_source" _) with (Some (YStr (default_source c))).
  change (kwarg "allowed_sources" _)
    with (Some (YSeq (YStr <$> allowed_sources c))).
  change (kwarg "aliases" _) with (Some (dump_str_dict (aliases c))).
  unfold validate_str, validate_str_list.
  rewrite mapM_as_str, validate_dump_str_dict. cbn.
  rewrite Hsrcs, Hds. cbn. by destruct c.
Qed.

(** [load] leaves the project directory as it found it. *)
Lemma load_state `{Yaml} (fs : FS) : (load fs).2 = fs.
Proof.
  unfold load, mbind, M_bind, gets, raise, lift. cbn.
  destruct (config_file fs); [|done].
  destruct (safe_load _); [|done].
  destruct (kwargs _); [|done].
  by destruct (SkillConfig_validate _).
Qed.

(** C8: saving a config whose default source and allowed sources have the
    accepted shape and loading it again returns that config, provided the
    YAML library reads back the document it has just written. *)
Theorem load_after_save `{Yaml} (c : SkillConfig) (fs : FS) :
  source_format_ok (default_source c) = true →
  forallb source_format_ok (allowed_sources c) = true →
  safe_load (safe_dump (SkillConfig_dump c)) = Some (SkillConfig_dump c) →
  (save c;; load) fs
  = (Ok c, {| config_file := Some (safe_dump (SkillConfig_dump c));
              skills_dir := skills_dir fs |}).
Proof.
  intros Hds Hsrcs Hyaml.
  destruct (SkillConfig_validate_dump c Hds Hsrcs) as (kw & Hkw & Hval).
  unfold save, load, mbind, M_bind, modify, gets, lift. cbn.
  by rewrite Hyaml, Hkw, Hval.
Qed.

Lemma load_after_save_witness :
  (@save Demo.yaml_lib Demo.config;; @load Demo.yaml_lib) Demo.fresh
  = (Ok Demo.config, Demo.with_config (SkillConfig_dump Demo.config)).
Proof.
  apply (@load_after_save Demo.yaml_lib Demo.config Demo.fresh);
    vm_compute; reflexivity.
Defined.

(** C5: on a stored config that loads, removing the default source raises
    the dedicated error whatever the allowed sources are, and removing
    another source that is not allowed returns the loaded config; neither
    writes anything. *)
Theorem remove_source_default_or_absent `{Yaml} (fs : FS) (c : SkillConfig) :
  load fs = (Ok c, fs) →
  remove_source (default_source c) fs
  = (Raise (ValueError CannotRemoveDefault), fs)
  ∧ (∀ src, src ≠ default_source c → src ∉ allowed_sources c →
            remove_source src fs = (Ok c, fs)).
Proof.
  intros Hload. split.
  - unfold remove_source, mbind, M_bind. rewrite Hload.
    by rewrite decide_True.
  - intros src Hne Hnotin. unfold remove_source, mbind, M_bind.
    rewrite Hload. by rewrite decide_False, decide_False.
Qed.

Lemma remove_source_default_or_absent_witness :
  @remove_source Demo.yaml_lib "acme/skills"
     (Demo.with_config (SkillConfig_dump Demo.config))
  = (Raise (ValueError CannotRemoveDefault),
     Demo.with_config (SkillConfig_dump Demo.config))
  ∧ @remove_source Demo.yaml_lib "nobody/nothing"
       (Demo.with_config (SkillConfig_dump Demo.config))
    = (Ok Demo.config, Demo.with_config (SkillConfig_dump Demo.config)).
Proof.
  assert (@load Demo.yaml_lib (Demo.with_config (SkillConfig_dump Demo.config))
          = (Ok Demo.config, Demo.with_config (SkillConfig_dump Demo.config)))
    as Hload by (vm_compute; reflexivity).
  destruct (@remove_source_default_or_absent Demo.yaml_lib _ _ Hload)
    as [Hdefault Habsent].
  split; [exact Hdefault|].
  apply Habsent; [discriminate|].
  cbn. rewrite !elem_of_cons, elem_of_nil. intros [|[|[]]]; discriminate.
Defined.

(** A config file that exists never makes [load] report a missing file. *)
Lemma load_existing_not_FileNotFoundError `{Yaml} (fs : FS) (text : string) :
  config_file fs = Some text → (load fs).1 ≠ Raise FileNotFoundError.
Proof.
  intros Hfile. unfold load, mbind, M_bind, gets, raise, lift. cbn.
  rewrite Hfile.
  destruct (safe_load text); [|done].
  destruct (or_empty_dict _) as [| | | | | |items]; try done. cbn.
  destruct (mapM as_str_key items); [|done].
  by destruct (SkillConfig_validate _).
Qed.

(** A config file that parses to nothing, or to any other value Python
    takes as false, is read as an empty mapping and rejected as an invalid
    configuration: [default_source] is required. *)
Lemma load_empty_document `{Yaml} (fs : FS) (text : string) (doc : yaml) :
  config_file fs = Some text → safe_load text = Some doc →
  py_truthy doc = false →
  load fs = (Raise (ValueError InvalidConfiguration), fs).
Proof.
  intros Hfile Hdoc Hfalse.
  unfold load, mbind, M_bind, gets, raise, lift. cbn.
  by rewrite Hfile, Hdoc; unfold or_empty_dict; rewrite Hfalse.
Qed.

(** A mapping with string keys that does not validate is rejected as an
    invalid configuration. *)
Lemma load_invalid_mapping `{Yaml} (fs : FS) (text : string)
    (items : list (yaml * yaml)) (kw : list (string * yaml)) :
  config_file fs = Some text → safe_load text = Some (YMap items) →
  mapM as_str_key items = Some kw → SkillConfig_validate kw = None →
  load fs = (Raise (ValueError InvalidConfiguration), fs).
Proof.
  intros Hfile Hdoc Hkw Hval.
  unfold load, mbind, M_bind, gets, raise, lift. cbn.
  rewrite Hfile, Hdoc. destruct items as [|item items].
  - cbn in *. by simplify_eq.
  - unfold or_empty_dict; cbn [py_truthy kwargs]. by rewrite Hkw, Hval.
Qed.

(** C10, where the code departs from the claim: a config file that exists
    and parses to a value that is true for Python and is not a mapping (a
    non-empty list, a non-empty string, a non-zero number) does not reach
    validation: unpacking it as keyword arguments raises [TypeError], which
    [load] does not turn into the invalid-configuration error. *)
Theorem load_non_mapping_TypeError `{Yaml} (fs : FS) (text : string)
    (doc : yaml) :
  config_file fs = Some text → safe_load text = Some doc →
  py_truthy doc = true → (∀ items, doc ≠ YMap items) →
  load fs = (Raise TypeError, fs)
  ∧ load fs ≠ (Raise (ValueError InvalidConfiguration), fs).
Proof.
  intros Hfile Hdoc Htrue Hnotmap.
  assert (load fs = (Raise TypeError, fs)) as Hload.
  { unfold load, mbind, M_bind, gets, raise, lift. cbn.
    rewrite Hfile, Hdoc. unfold or_empty_dict. rewrite Htrue.
    destruct doc; try done. by destruct (Hnotmap items). }
  by rewrite Hload.
Qed.

Lemma load_non_mapping_TypeError_witness :
  @load Demo.yaml_lib (Demo.with_config (YSeq [YStr "acme/skills"]))
  = (Raise TypeError, Demo.with_config (YSeq [YStr "acme/skills"])).
Proof.
  refine (proj1 (@load_non_mapping_TypeError Demo.yaml_lib
    (Demo.with_config (YSeq [YStr "acme/skills"]))
    (Demo.print (YSeq [YStr "acme/skills"]))
    (YSeq [YStr "acme/skills"]) _ _ _ _)).
  - reflexivity.
  - vm_compute; reflexivity.
  - reflexivity.
  - discriminate.
Defined.

(* ===================================================================== *)
(** ** The installer *)
(* ===================================================================== *)

Lemma endswith_app (s suffix : string) :
  PyStr.endswith (s +:+ suffix) suffix = true.
Proof.
  induction s as [|c s IH]; simpl.
  - destruct suffix; simpl; by rewrite ?Ascii.eqb_refl, ?String.eqb_refl.
  - by rewrite IH, orb_true_r.
Qed.

Lemma filename_endswith_md (skill : Skill) :
  PyStr.endswith (filename skill) ".md" = true.
Proof.
  unfold filename. destruct (PyStr.endswith (name skill) ".md") eqn:Hmd;
    [done|apply endswith_app].
Qed.

(** A skill file is never the metadata sidecar. *)
Lemma filename_not_sidecar (skill : Skill) : filename skill ≠ METADATA_FILE.
Proof.
  intros Heq. pose proof (filename_endswith_md skill) as Hmd.
  rewrite Heq in Hmd. discriminate.
Qed.

Lemma ensure_md_filename (skill : Skill) : ensure_md (name skill) = filename skill.
Proof. unfold ensure_md, filename. by destruct (PyStr.endswith _ _). Qed.

Lemma read_write_file_eq (file text : string) (fs : FS) :
  read_file file (write_file file text fs) = Some text.
Proof. unfold read_file, write_file; cbn. apply lookup_insert_eq. Qed.

Lemma read_write_file_ne (file file' text : string) (fs : FS) :
  file ≠ file' → read_file file' (write_file file text fs) = read_file file' fs.
Proof.
  intros Hne. unfold read_file, write_file; cbn.
  rewrite lookup_insert_ne by done. by destruct (skills_dir fs).
Qed.

(** The last component of a name ending in [.md] ends in [.md]. *)
Lemma split_last_md (s : string) :
  PyStr.endswith s ".md" = true →
  ∃ (init : list string) (l : string),
    PyStr.split "/"%char s = (init ++ [l])%list
    ∧ PyStr.endswith l ".md" = true.
Proof.
  induction s as [|c rest IH]; [done|].
  intros Hmd. cbn [PyStr.endswith] in Hmd.
  cbn [PyStr.split]. destruct (Ascii.eqb c "/") eqn:Hc.
  - apply Ascii.eqb_eq in Hc as ->. cbn in Hmd.
    destruct (IH Hmd) as (init & l & -> & Hl).
    by exists (EmptyString :: init), l.
  - destruct (String.eqb (String c rest) ".md") eqn:Heq.
    + apply String.eqb_eq in Heq. injection Heq as -> ->.
      by exists [], ".md".
    + cbn in Hmd. destruct (IH Hmd) as (init & l & -> & Hl).
      destruct init as [|i init]; cbn.
      * exists [], (String c l). split; [done|].
        cbn [PyStr.endswith]. by rewrite Hl, orb_true_r.
      * by exists (String c i :: init), l.
Qed.

(** A name ending in [.md] that leads to an entry of the skills directory
    leads to an entry ending in [.md]: never to the sidecar. *)
Lemma locate_child_md (name file : string) :
  PyStr.endswith name ".md" = true → locate name = Child file →
  PyStr.endswith file ".md" = true.
Proof.
  intros Hmd. destruct (split_last_md name Hmd) as (init & l & Hsplit & Hl).
  unfold locate. rewrite Hsplit, List.filter_app.
  assert (negb (String.eqb l EmptyString || String.eqb l ".") = true) as Hkeep.
  { destruct l as [|c [|c' l]].
    - by vm_compute in Hl.
    - cbn in Hl. by destruct (Ascii.eqb c ".").
    - cbn. by destruct (Ascii.eqb c "."). }
  cbn [List.filter]. rewrite Hkeep. clear Hkeep.
  destruct (negb (PyStr.count _ _ =? 0)%nat); [done|]. destruct (match name with String _ _ => _ | _ => _ end); [done|].
  destruct (List.filter _ init) as [|c [|c' rest]]; cbn.
  - destruct (String.eqb l ".."); [done|]. by intros [= <-].
  - by destruct (String.eqb c "..").
  - by destruct (String.eqb c "..").
Qed.

Lemma located_not_sidecar (name file : string) :
  PyStr.endswith name ".md" = true → locate name = Child file →
  file ≠ METADATA_FILE.
Proof.
  intros Hmd Hloc ->. by pose proof (locate_child_md _ _ Hmd Hloc).
Qed.

(** Creating the skills directory changes no entry. *)
Lemma read_file_ensured (file : string) (fs : FS) :
  read_file file {| config_file := config_file fs;
                    skills_dir := Some (default ∅ (skills_dir fs)) |}
  = read_file file fs.
Proof. unfold read_file; cbn. by destruct (skills_dir fs). Qed.

Section InstallerFacts.
Context `{Yaml} `{Hashlib} `{Datetime}.

(** [_load_metadata] reads the sidecar only, and changes nothing. *)
Lemma _load_metadata_frame (fs fs' : FS) (m : SkillsMetadata) :
  read_file METADATA_FILE fs' = read_file METADATA_FILE fs →
  _load_metadata fs = (Ok m, fs) → _load_metadata fs' = (Ok m, fs').
Proof.
  unfold _load_metadata, mbind, M_bind, gets, raise, lift, mret, M_ret.
  intros ->. destruct (read_file METADATA_FILE fs); [|by intros [= <-]].
  destruct (safe_load _); [|done].
  destruct (kwargs _); [|done].
  destruct (SkillsMetadata_validate _); [|done]. by intros [= <-].
Qed.

(** Up to the conflict test [install] creates the directory and looks for
    the target. *)
Lemma install_unfold (skill : Skill) (cr : ConflictResolution)
    (now : datetime) (fs : FS) (file : string) :
  locate (filename skill) = Child file →
  install skill cr now fs
  = match bool_decide (is_Some (read_file file fs)), cr with
    | true, SKIP =>
        (Ok false, {| config_file := config_file fs;
                      skills_dir := Some (default ∅ (skills_dir fs)) |})
    | true, PROMPT =>
        (Raise FileExistsError,
         {| config_file := config_file fs;
            skills_dir := Some (default ∅ (skills_dir fs)) |})
    | _, _ =>
        match _load_metadata (write_file file (content skill) fs) with
        | (Ok m, fs') =>
            (Ok true,
             write_file METADATA_FILE
               (safe_dump (SkillsMetadata_dump
                  {| skills := <[filename skill := record_of skill now]>
                                 (skills m) |})) fs')
        | (Raise e, fs') => (Raise e, fs')
        end
    end.
Proof.
  intros Hloc.
  unfold install, mbind, M_bind, _ensure_skills_dir, modify, path_exists,
    open_write, raise. rewrite Hloc, read_file_ensured.
  change (write_file file (content skill)
            {| config_file := config_file fs;
               skills_dir := Some (default ∅ (skills_dir fs)) |})
    with (write_file file (content skill) fs).
  destruct (bool_decide _), cr; try done;
    by destruct (_load_metadata _) as [[m|e] fs'].
Qed.

(** When the target is absent, or under [OVERWRITE], and the index loads,
    [install] writes the file and the index and returns [True]. *)
Lemma install_writes (skill : Skill) (cr : ConflictResolution)
    (now : datetime) (fs : FS) (m : SkillsMetadata) (file : string) :
  locate (filename skill) = Child file →
  _load_metadata fs = (Ok m, fs) →
  read_file file fs = None ∨ cr = OVERWRITE →
  install skill cr now fs = (Ok true, installed fs file skill now m).
Proof.
  intros Hloc Hload Hgo.
  assert (_load_metadata (write_file file (content skill) fs)
          = (Ok m, write_file file (content skill) fs)) as Hload'.
  { eapply _load_metadata_frame; [|done].
    apply read_write_file_ne.
    by eapply located_not_sidecar; [apply filename_endswith_md|]. }
  rewrite (install_unfold _ _ _ _ _ Hloc), Hload'.
  destruct Hgo as [Habsent | ->].
  - rewrite Habsent, bool_decide_false by (by intros [? ?]). by destruct cr.
  - by destruct (bool_decide _).
Qed.
End InstallerFacts.

Section InstallerRoundTrip.
Context `{Yaml} `{Hashlib} `{Datetime}.
Hypothesis datetime_roundtrip :
  ∀ t, validate_datetime (YStr (isoformat t)) = Some t.

Lemma SkillMetadata_validate_dump (r : SkillMetadata) :
  SkillMetadata_validate (SkillMetadata_dump r) = Some r.
Proof.
  unfold SkillMetadata_validate, SkillMetadata_dump. cbn.
  rewrite datetime_roundtrip. cbn. by destruct r.
Qed.

Lemma mapM_SkillMetadata_item (l : list (string * SkillMetadata)) :
  mapM SkillMetadata_item ((λ kv, (YStr kv.1, SkillMetadata_dump kv.2)) <$> l)
  = Some l.
Proof.
  induction l as [|[k r] l IH]; [done|].
  rewrite fmap_cons. cbn [mapM]. rewrite IH.
  unfold SkillMetadata_item. cbn [fst snd as_str].
  by rewrite SkillMetadata_validate_dump.
Qed.

Lemma SkillsMetadata_validate_dump (m : SkillsMetadata) :
  ∃ kw, kwargs (or_empty_dict (SkillsMetadata_dump m)) = Ok kw
        ∧ SkillsMetadata_validate kw = Some m.
Proof.
  eexists. split; [reflexivity|].
  unfold SkillsMetadata_validate. cbn [kwarg String.eqb Ascii.eqb Bool.eqb snd].
  rewrite mapM_SkillMetadata_item. cbn.
  rewrite list_to_map_to_list. by destruct m.
Qed.

(** Reading the index back after [install] gives the index it wrote. *)
Lemma _load_metadata_installed (fs : FS) (file : string) (skill : Skill)
    (now : datetime) (m : SkillsMetadata) :
  let m' := {| skills := <[filename skill := record_of skill now]> (skills m) |} in
  safe_load (safe_dump (SkillsMetadata_dump m')) = Some (SkillsMetadata_dump m') →
  _load_metadata (installed fs file skill now m)
  = (Ok m', installed fs file skill now m).
Proof.
  intros m' Hyaml.
  destruct (SkillsMetadata_validate_dump m') as (kw & Hkw & Hval).
  unfold _load_metadata, mbind, M_bind, gets, lift. unfold installed at 1.
  rewrite read_write_file_eq. fold m'. by rewrite Hyaml, Hkw, Hval.
Qed.
End InstallerRoundTrip.

Section InstallerClaims.
Context `{Yaml} `{Hashlib} `{Datetime}.

(** An [install] that returned [True] found its target among the entries
    of the skills directory, absent or to be overwritten. *)
Lemma install_true_inv (skill : Skill) (cr : ConflictResolution)
    (now : datetime) (fs fs1 : FS) :
  install skill cr now fs = (Ok true, fs1) →
  ∃ file, locate (filename skill) = Child file
          ∧ (read_file file fs = None ∨ cr = OVERWRITE).
Proof.
  destruct (locate (filename skill)) as [file|dir|] eqn:Hloc.
  - rewrite (install_unfold _ _ _ _ _ Hloc). intros Hinstall.
    exists file. split; [done|].
    destruct (bool_decide (is_Some (read_file file fs))) eqn:Hthere.
    + destruct cr; [done|by right|done].
    + left. apply bool_decide_eq_false in Hthere.
      by destruct (read_file file fs); [destruct Hthere|].
  - unfold install, mbind, M_bind, _ensure_skills_dir, modify, path_exists,
      open_write. rewrite Hloc. done.
  - unfold install, mbind, M_bind, _ensure_skills_dir, modify, path_exists.
    rewrite Hloc. done.
Qed.

Lemma needs_update_loaded (fs : FS) (m : SkillsMetadata)
    (skill_name new_checksum : string) :
  _load_metadata fs = (Ok m, fs) →
  needs_update skill_name new_checksum fs
  = (Ok match skills m !! ensure_md skill_name with
        | None => false
        | Some info => bool_decide (checksum info ≠ new_checksum)
        end, fs).
Proof.
  intros Hload. unfold needs_update, get_skill_info, mbind, M_bind.
  rewrite Hload. cbn. by destruct (skills m !! ensure_md skill_name).
Qed.
End InstallerClaims.

(** C6 (as the code has it): for a skill whose file name leads to an entry
    of the skills directory, that entry being absent and the index
    readable, [install] under [SKIP] returns [True] and the entry holds the
    skill's content.  A following [install] under [SKIP] of any skill whose
    file name leads to the same entry, the same skill or one with other
    content, returns [False] and leaves the project directory exactly as
    the first install left it: the entry still holds the first content. *)
Theorem install_twice_skip `{Yaml} `{Hashlib} `{Datetime} (skill skill' : Skill)
    (now1 now2 : datetime) (fs : FS) (m : SkillsMetadata) (file : string) :
  locate (filename skill) = Child file →
  locate (filename skill') = Child file →
  read_file file fs = None →
  _load_metadata fs = (Ok m, fs) →
  ∃ fs1, install skill SKIP now1 fs = (Ok true, fs1)
         ∧ read_file file fs1 = Some (content skill)
         ∧ install skill' SKIP now2 fs1 = (Ok false, fs1)
         ∧ install skill SKIP now2 fs1 = (Ok false, fs1).
Proof.
  intros Hloc Hloc' Habsent Hload. exists (installed fs file skill now1 m).
  assert (read_file file (installed fs file skill now1 m)
          = Some (content skill)) as Hread.
  { unfold installed.
    rewrite read_write_file_ne
      by (symmetry; by eapply located_not_sidecar;
          [apply filename_endswith_md|]).
    apply read_write_file_eq. }
  split; [apply install_writes; auto|]. split; [done|].
  split; [rewrite (install_unfold _ _ _ _ _ Hloc')
         |rewrite (install_unfold _ _ _ _ _ Hloc)];
    by rewrite Hread, bool_decide_true.
Qed.

Lemma install_twice_skip_witness :
  ∃ fs1,
    @install Demo.yaml_lib Demo.hashlib Demo.clock Demo.skill SKIP
       "2024-01-01T10:00:00" Demo.fresh = (Ok true, fs1)
    ∧ read_file "skill-a.md" fs1 = Some "# Skill A"
    ∧ @install Demo.yaml_lib Demo.hashlib Demo.clock Sample.respelled_skill
        SKIP "2024-02-02T12:00:00" fs1 = (Ok false, fs1)
    ∧ @install Demo.yaml_lib Demo.hashlib Demo.clock Demo.skill SKIP
        "2024-02-02T12:00:00" fs1 = (Ok false, fs1).
Proof.
  apply (@install_twice_skip Demo.yaml_lib Demo.hashlib Demo.clock Demo.skill
           Sample.respelled_skill "2024-01-01T10:00:00" "2024-02-02T12:00:00"
           Demo.fresh {| skills := ∅ |} "skill-a.md"); reflexivity.
Defined.

(** C6, the claim as worded fails: a skill named through a directory that
    does not exist is not installed; the first call raises
    [FileNotFoundError] when it opens the file, having created the skills
    directory and nothing else. *)
Lemma install_name_through_missing_directory :
  @install Demo.yaml_lib Demo.hashlib Demo.clock Sample.nested_skill SKIP
     "2024-01-01T10:00:00" Demo.fresh
  = (Raise FileNotFoundError, {| config_file := None; skills_dir := Some ∅ |}).
Proof. reflexivity. Qed.

(** C7: when the index loads, [needs_update] is [False] if the index has no
    record for the normalised file name and otherwise tells whether the
    record's checksum differs from the given one.  After an [install] that
    returned [True] it is [False] for the checksum of the installed content
    and [True] for every other checksum, provided the libraries read back
    the index and the timestamps they have written. *)
Theorem needs_update_compares_checksum `{Yaml} `{Hashlib} `{Datetime}
    (fs : FS) (m : SkillsMetadata) :
  _load_metadata fs = (Ok m, fs) →
  (∀ skill_name new_checksum,
     needs_update skill_name new_checksum fs
     = (Ok match skills m !! ensure_md skill_name with
           | None => false
           | Some info => bool_decide (checksum info ≠ new_checksum)
           end, fs))
  ∧ (∀ skill cr now fs1,
       install skill cr now fs = (Ok true, fs1) →
       (∀ t, validate_datetime (YStr (isoformat t)) = Some t) →
       (let doc := SkillsMetadata_dump
          {| skills := <[filename skill := record_of skill now]> (skills m) |} in
        safe_load (safe_dump doc) = Some doc) →
       needs_update (name skill) (compute_checksum (content skill)) fs1
       = (Ok false, fs1)
       ∧ ∀ other, other ≠ compute_checksum (content skill) →
                  needs_update (name skill) other fs1 = (Ok true, fs1)).
Proof.
  intros Hload. split; [intros; by apply needs_update_loaded|].
  intros skill cr now fs1 Hinstall Htime Hyaml.
  destruct (install_true_inv _ _ _ _ _ Hinstall) as (file & Hloc & Hgo).
  rewrite (install_writes _ _ now _ _ _ Hloc Hload Hgo) in Hinstall.
  injection Hinstall as <-.
  pose proof (_load_metadata_installed Htime fs file skill now m Hyaml)
    as Hload1.
  split; [|intros other Hother];
    rewrite (needs_update_loaded _ _ _ _ Hload1), ensure_md_filename;
    cbn [skills]; rewrite lookup_insert_eq; cbn [checksum record_of].
  - by rewrite bool_decide_false by (intros Hne; by apply Hne).
  - by rewrite bool_decide_true by done.
Qed.

Lemma needs_update_compares_checksum_witness :
  let fs1 := @installed Demo.yaml_lib Demo.hashlib Demo.clock Demo.fresh
               "skill-a.md" Demo.skill "2024-01-01T10:00:00"
               {| skills := ∅ |} in
  @needs_update Demo.yaml_lib Demo.clock "skill-a" "sha256:# Skill A" fs1
  = (Ok false, fs1)
  ∧ @needs_update Demo.yaml_lib Demo.clock "skill-a" "different-checksum" fs1
    = (Ok true, fs1).
Proof.
  intros fs1.
  destruct (@needs_update_compares_checksum Demo.yaml_lib Demo.hashlib
              Demo.clock Demo.fresh {| skills := ∅ |} eq_refl) as [_ Hafter].
  destruct (Hafter Demo.skill SKIP "2024-01-01T10:00:00" fs1) as [Hsame Hother].
  - reflexivity.
  - intros t. reflexivity.
  - vm_compute. reflexivity.
  - split; [exact Hsame|]. apply Hother. discriminate.
Defined.

Set Warnings "-clear-no-such-hyp".

(* ===================================================================== *)
(** ** More on the fetcher *)
(* ===================================================================== *)

(** What a successful attempt returns. *)
Lemma on_success_fields `{Frontmatter} skill_name src validate url text skill :
  on_success skill_name src validate url text = Ok skill →
  name skill = skill_name ∧ content skill = text
  ∧ source skill = full_name src ∧ skill_branch skill = branch src.
Proof.
  unfold on_success.
  destruct (if validate then _ else _); [|done].
  destruct (frontmatter_loads text) as [parsed|]; [|done].
  destruct (match parsed with [] => _ | _ => _ end); [|done].
  by intros [= <-].
Qed.

(** X1: after [k] retryable failures, [k] at most three, a 200 answer whose
    body is accepted makes [fetch] return the skill with the body as its
    content.  What it has done by then is the start of the four-attempt
    trace up to the [k + 1]-th request: each failed request is followed by
    its delay (2, then 4, then 8) before the next request, and nothing
    follows the request that succeeded. *)
Theorem fetch_succeeds_after_retries `{Frontmatter} skill_name src validate
    (k : nat) (w : Net) (text : string) (skill : Skill) :
  (k ≤ 3)%nat →
  (∀ j, (j < k)%nat → retryable (server w (length (requests w) + j)) = true) →
  server w (length (requests w) + k) = Response 200 text →
  on_success skill_name src validate (_build_url src skill_name) text = Ok skill →
  fetch skill_name src validate w
  = (Ok skill,
     after w (take (2 * k + 1)
                [ Requested (_build_url src skill_name); Slept (2 # 1);
                  Requested (_build_url src skill_name); Slept (4 # 1);
                  Requested (_build_url src skill_name); Slept (8 # 1);
                  Requested (_build_url src skill_name) ]))
  ∧ content skill = text ∧ name skill = skill_name
  ∧ source skill = full_name src ∧ skill_branch skill = branch src.
Proof.
  intros Hk Hall Hgot Hok. split.
  - rewrite (fetch_stops_at _ _ _ k) by (done || by rewrite Hgot).
    rewrite Hgot. cbn. by rewrite Hok.
  - apply on_success_fields in Hok. by destruct Hok as (? & ? & ? & ?).
Qed.

Lemma fetch_succeeds_after_retries_witness :
  let w := {| server := λ n, if (n <? 3)%nat then Response 503 "busy"
                             else Response 200 "# Skill A";
              log := [] |} in
  let url := "https://raw.githubusercontent.com/acme/skills/main/.claude/skills/skill-a.md" in
  @fetch Demo.frontmatter_lib "skill-a" Demo.acme true w
  = (Ok Demo.skill,
     after w [ Requested url; Slept (2 # 1); Requested url; Slept (4 # 1);
               Requested url; Slept (8 # 1); Requested url ]).
Proof.
  intros w url.
  destruct (@fetch_succeeds_after_retries Demo.frontmatter_lib "skill-a"
              Demo.acme true 3 w "# Skill A" Demo.skill) as [Hfetch _].
  - lia.
  - intros [|[|[|j]]] Hj; [reflexivity|reflexivity|reflexivity|lia].
  - reflexivity.
  - reflexivity.
  - exact Hfetch.
Defined.

(** X2: whatever the server answers, [fetch] sends between one and four
    requests, all for the skill's URL, and when it ends after [n] requests
    it has slept exactly the first [n - 1] of the delays 2, 4, 8, one
    between each request and the next: what it has done is the start of the
    four-attempt trace up to its [n]-th request. *)
Theorem fetch_requests_bounded `{Frontmatter} skill_name src validate (w : Net) :
  ∃ n, (1 ≤ n ≤ 4)%nat
       ∧ (fetch skill_name src validate w).2
         = after w (take (2 * n - 1)
                      [ Requested (_build_url src skill_name); Slept (2 # 1);
                        Requested (_build_url src skill_name); Slept (4 # 1);
                        Requested (_build_url src skill_name); Slept (8 # 1);
                        Requested (_build_url src skill_name) ]).
Proof.
  destruct (retryable (server w (length (requests w) + 0))) eqn:H0;
    [|exists 1%nat; split; [lia|]; by rewrite (fetch_stops_at _ _ _ 0%nat)
                                      by (done || lia)].
  destruct (retryable (server w (length (requests w) + 1))) eqn:H1;
    [|exists 2%nat; split; [lia|];
      rewrite (fetch_stops_at _ _ _ 1%nat); [done|lia| |done];
      intros [|j] Hj; [done|lia]].
  destruct (retryable (server w (length (requests w) + 2))) eqn:H2;
    [|exists 3%nat; split; [lia|];
      rewrite (fetch_stops_at _ _ _ 2%nat); [done|lia| |done];
      intros [|[|j]] Hj; [done|done|lia]].
  destruct (retryable (server w (length (requests w) + 3))) eqn:H3;
    [|exists 4%nat; split; [lia|];
      rewrite (fetch_stops_at _ _ _ 3%nat); [done|lia| |done];
      intros [|[|[|j]]] Hj; [done|done|done|lia]].
  exists 4%nat. split; [lia|].
  rewrite (fetch_after_failures _ _ _ 4); [done|lia|].
  intros [|[|[|[|j]]]] Hj; [done|done|done|done|lia].
Qed.

(** X3: after [k] retryable failures, [k] at most three, a status of 403,
    or any status below 500 other than 200 and 404, ends [fetch] with the
    access error or the unexpected-status error.  The request that got this
    answer is the last thing [fetch] did: no sleep and no request follow
    it. *)
Theorem fetch_status_not_retried `{Frontmatter} skill_name src validate
    (k : nat) (w : Net) (st : Z) (body : string) :
  (k ≤ 3)%nat →
  (∀ j, (j < k)%nat → retryable (server w (length (requests w) + j)) = true) →
  server w (length (requests w) + k) = Response st body →
  st ≠ 200%Z → st ≠ 404%Z → (st < 500)%Z →
  fetch skill_name src validate w
  = (Raise (FetchError (if decide (st = 403%Z) then AccessForbidden
                        else UnexpectedStatus st)),
     after w (take (2 * k + 1)
                [ Requested (_build_url src skill_name); Slept (2 # 1);
                  Requested (_build_url src skill_name); Slept (4 # 1);
                  Requested (_build_url src skill_name); Slept (8 # 1);
                  Requested (_build_url src skill_name) ])).
Proof.
  intros Hk Hall Hgot H200 H404 H500.
  rewrite (fetch_stops_at _ _ _ k); [|done|done|].
  - rewrite Hgot. cbn.
    rewrite !(proj2 (Z.eqb_neq st _)) by done.
    destruct (decide (st = 403%Z)) as [->|Hne]; [done|].
    rewrite (proj2 (Z.eqb_neq st 403)) by done.
    by rewrite (proj2 (Z.leb_gt 500 st)) by done.
  - rewrite Hgot. cbn. by apply Z.leb_gt.
Qed.

Lemma fetch_status_not_retried_witness :
  let w := {| server := λ n, if (n <? 1)%nat then Response 503 "busy"
                             else Response 403 "Forbidden";
              log := [] |} in
  let url := "https://raw.githubusercontent.com/acme/skills/main/.claude/skills/skill-a.md" in
  @fetch Demo.frontmatter_lib "skill-a" Demo.acme true w
  = (Raise (FetchError AccessForbidden),
     after w [Requested url; Slept (2 # 1); Requested url]).
Proof.
  intros w url.
  apply (@fetch_status_not_retried Demo.frontmatter_lib "skill-a" Demo.acme
           true 1 w 403 "Forbidden"); try reflexivity; try lia.
  intros [|j] Hj; [reflexivity|lia].
Defined.

(** X4: the outcome of [_validate_content] depends on the length of the
    content and on whether it holds a non-whitespace character, in that
    order, and on nothing else: neither the URL nor the front-matter parser
    matters, and an oversized content is reported as too large even when it
    is blank. *)
Theorem validate_content_outcome `{Frontmatter} (text url : string) :
  _validate_content text url
  = if (MAX_FILE_SIZE <? N.of_nat (String.length text))%N then
      Raise (FetchError (FileTooLarge (String.length text)))
    else if PyStr.has_nonspace text then Ok tt
    else Raise (FetchError ContentEmpty).
Proof.
  unfold _validate_content. destruct (_ <? _)%N; [done|].
  rewrite any_nonblank_line_strip, strip_truthy.
  destruct (PyStr.has_nonspace text); cbn; [|done].
  by destruct (frontmatter_loads text).
Qed.

(** X5: a 200 answer whose body is blank and within the size limit makes a
    validating [fetch] fail with the emptiness error after one request,
    without retry; with [validate=False] the same body is returned as a
    skill when its front matter parses to no metadata. *)
Theorem fetch_blank_body `{Frontmatter} skill_name src (w : Net) (text : string) :
  server w (length (requests w)) = Response 200 text →
  (N.of_nat (String.length text) <= MAX_FILE_SIZE)%N →
  PyStr.has_nonspace text = false →
  fetch skill_name src true w
  = (Raise (FetchError ContentEmpty),
     after w [Requested (_build_url src skill_name)])
  ∧ (frontmatter_loads text = Ok [] →
     fetch skill_name src false w
     = (Ok {| name := skill_name; content := text; source := full_name src;
              skill_branch := branch src; metadata := None |},
        after w [Requested (_build_url src skill_name)])).
Proof.
  intros Hgot Hsize Hblank.
  assert (retryable (server w (length (requests w) + 0)) = false) as Hstop
    by (by rewrite Nat.add_0_r, Hgot).
  split; [|intros Hfm];
    rewrite (fetch_stops_at _ _ _ 0%nat) by (done || lia);
    rewrite Nat.add_0_r, Hgot; cbn; unfold on_success.
  - unfold _validate_content.
    rewrite (proj2 (N.ltb_ge _ _)) by done.
    by rewrite strip_truthy, Hblank.
  - by rewrite Hfm.
Qed.

Lemma fetch_blank_body_witness :
  @fetch Demo.frontmatter_lib "skill-a" Demo.acme true (Demo.net (Response 200 "  "))
  = (Raise (FetchError ContentEmpty),
     after (Demo.net (Response 200 "  "))
       [Requested (@_build_url Demo.acme "skill-a")])
  ∧ (@fetch Demo.frontmatter_lib "skill-a" Demo.acme false
       (Demo.net (Response 200 "  "))).1
    = Ok {| name := "skill-a"; content := "  "; source := "acme/skills";
            skill_branch := "main"; metadata := None |}.
Proof.
  destruct (@fetch_blank_body Demo.frontmatter_lib "skill-a" Demo.acme
              (Demo.net (Response 200 "  ")) "  ") as [Hval Hnoval].
  - reflexivity.
  - vm_compute. discriminate.
  - reflexivity.
  - split; [exact Hval|]. by rewrite Hnoval.
Defined.

Lemma endswith_app_r (p s suffix : string) :
  PyStr.endswith s suffix = true → PyStr.endswith (p +:+ s) suffix = true.
Proof.
  intros Hs. induction p as [|c p IH]; simpl; [done|].
  by rewrite IH, orb_true_r.
Qed.

Lemma ensure_md_endswith (skill_name : string) :
  PyStr.endswith (ensure_md skill_name) ".md" = true.
Proof.
  unfold ensure_md. destruct (PyStr.endswith skill_name ".md") eqn:Hmd;
    [done|apply endswith_app].
Qed.

(** X6: the name normalisation is idempotent and always gives a name ending
    in [.md], so a skill is addressed by the same URL with or without the
    extension, and every URL built ends in [.md]. *)
Theorem build_url_extension (src : SkillSource) (skill_name : string) :
  ensure_md (ensure_md skill_name) = ensure_md skill_name
  ∧ _build_url src (ensure_md skill_name) = _build_url src skill_name
  ∧ PyStr.endswith (_build_url src skill_name) ".md" = true.
Proof.
  assert (ensure_md (ensure_md skill_name) = ensure_md skill_name) as Hidem.
  { unfold ensure_md at 1. by rewrite ensure_md_endswith. }
  split; [done|]. split.
  - unfold _build_url. fold (ensure_md (ensure_md skill_name)).
    fold (ensure_md skill_name). by rewrite Hidem.
  - unfold _build_url. fold (ensure_md skill_name).
    repeat apply endswith_app_r. apply ensure_md_endswith.
Qed.

(* ===================================================================== *)
(** ** More on source identifiers and configs *)
(* ===================================================================== *)

Lemma count_app sep (a b : string) :
  PyStr.count sep (a +:+ b) = (PyStr.count sep a + PyStr.count sep b)%nat.
Proof. induction a as [|c a IH]; simpl; [done|]. rewrite IH. lia. Qed.

Lemma split_no_sep sep (s : string) :
  PyStr.count sep s = 0%nat → PyStr.split sep s = [s].
Proof.
  induction s as [|c s IH]; simpl; [done|].
  destruct (Ascii.eqb c sep); [done|]. intros Hc. by rewrite IH.
Qed.

Lemma split_app_sep sep (a b : string) :
  PyStr.count sep a = 0%nat →
  PyStr.split sep (a +:+ String sep b) = a :: PyStr.split sep b.
Proof.
  induction a as [|c a IH]; simpl.
  - by rewrite Ascii.eqb_refl.
  - destruct (Ascii.eqb c sep); [done|]. intros Hc. by rewrite IH.
Qed.

(** X7: a source is read back from its own full name exactly when neither
    its owner nor its repository name holds a ['/']. *)
Theorem from_string_full_name (src : SkillSource) :
  from_string (full_name src) (branch src) = Ok src
  ↔ PyStr.count "/"%char (owner src) = 0%nat
    ∧ PyStr.count "/"%char (repo src) = 0%nat.
Proof.
  unfold from_string, full_name. split.
  - destruct (decide _) as [|Hlen]; [done|]. intros _.
    apply dec_stable in Hlen.
    rewrite split_length, count_app in Hlen.
    change (PyStr.count "/"%char ("/" +:+ repo src))
      with (S (PyStr.count "/"%char (repo src))) in Hlen. lia.
  - intros [Ho Hr].
    change (owner src +:+ "/" +:+ repo src)
      with (owner src +:+ String "/"%char (repo src)).
    rewrite split_app_sep, split_no_sep by done. cbn. by destruct src.
Qed.

Lemma SkillConfig_validate_some (kw : list (string * yaml)) (c : SkillConfig) :
  SkillConfig_validate kw = Some c → sources_ok c = true.
Proof.
  unfold SkillConfig_validate, sources_ok. intros Hval.
  destruct (validate_str _) as [ds|]; cbn in Hval; [|done].
  destruct (validate_str_list _) as [srcs|]; cbn in Hval; [|done].
  destruct (match kwarg "aliases" kw with Some _ => _ | None => _ end)
    as [als|]; cbn in Hval; [|done].
  destruct (forallb source_format_ok srcs) eqn:Hsrcs; cbn in Hval; [|done].
  destruct (source_format_ok ds) eqn:Hds; cbn in Hval; [|done].
  injection Hval as <-. cbn. by rewrite Hsrcs, Hds.
Qed.

(** X8: [load] changes nothing, and a config it returns has passed both
    validators: its default source and every allowed source hold exactly
    one ['/']. *)
Theorem load_returns_validated `{Yaml} (fs fs' : FS) (c : SkillConfig) :
  load fs = (Ok c, fs') →
  fs' = fs
  ∧ PyStr.count "/"%char (default_source c) = 1%nat
  ∧ ∀ src, src ∈ allowed_sources c → PyStr.count "/"%char src = 1%nat.
Proof.
  intros Hload.
  assert (fs' = fs) as -> by (by rewrite <- (load_state fs), Hload).
  split; [done|].
  assert (sources_ok c = true) as Hok.
  { revert Hload. unfold load, mbind, M_bind, gets, raise, lift. cbn.
    destruct (config_file fs); [|done]. destruct (safe_load _); [|done].
    destruct (kwargs _); [|done].
    destruct (SkillConfig_validate _) eqn:Hval; [|done].
    intros [= <-]. by eapply SkillConfig_validate_some. }
  unfold sources_ok in Hok. apply andb_true_iff in Hok as [Hsrcs Hds].
  assert (∀ s, source_format_ok s = true → PyStr.count "/"%char s = 1%nat)
    as Hcount.
  { intros s Hs. unfold source_format_ok in Hs.
    apply bool_decide_eq_true in Hs. rewrite split_length in Hs. lia. }
  split; [by apply Hcount|].
  intros src Hin. apply Hcount.
  rewrite forallb_forall in Hsrcs. by apply Hsrcs, list_elem_of_In.
Qed.

Lemma load_returns_validated_witness :
  PyStr.count "/"%char (default_source Demo.config) = 1%nat.
Proof.
  refine (proj1 (proj2 (@load_returns_validated Demo.yaml_lib
    (Demo.with_config (SkillConfig_dump Demo.config)) _ Demo.config _))).
  vm_compute. reflexivity.
Defined.

(* ===================================================================== *)
(** ** More on the configuration store *)
(* ===================================================================== *)

Section ConfigFacts.
Context `{Yaml}.

Lemma load_saved (c : SkillConfig) (fs : FS) :
  sources_ok c = true → reads_back (SkillConfig_dump c) →
  load (saved c fs) = (Ok c, saved c fs).
Proof.
  intros Hok Hyaml. apply andb_true_iff in Hok as [Hsrcs Hds].
  destruct (SkillConfig_validate_dump c Hds Hsrcs) as (kw & Hkw & Hval).
  unfold load, mbind, M_bind, gets, lift, saved. cbn.
  by rewrite Hyaml, Hkw, Hval.
Qed.

Lemma load_saved_invalid (c : SkillConfig) (fs : FS) :
  sources_ok c = false → reads_back (SkillConfig_dump c) →
  load (saved c fs) = (Raise (ValueError InvalidConfiguration), saved c fs).
Proof.
  intros Hbad Hyaml.
  unfold load, mbind, M_bind, gets, lift, saved. cbn.
  rewrite Hyaml.
  change (kwargs (or_empty_dict (SkillConfig_dump c)))
    with (Ok (A:=list (string * yaml))
            [("default_source", YStr (default_source c));
             ("allowed_sources", YSeq (YStr <$> allowed_sources c));
             ("aliases", dump_str_dict (aliases c))]).
  unfold SkillConfig_validate.
  change (kwarg "default_source" _) with (Some (YStr (default_source c))).
  change (kwarg "allowed_sources" _)
    with (Some (YSeq (YStr <$> allowed_sources c))).
  change (kwarg "aliases" _) with (Some (dump_str_dict (aliases c))).
  unfold validate_str, validate_str_list.
  rewrite mapM_as_str, validate_dump_str_dict. cbn.
  unfold sources_ok in Hbad.
  destruct (forallb source_format_ok (allowed_sources c)); cbn in *; [|done].
  by rewrite Hbad.
Qed.

Lemma load_sources_ok (fs fs' : FS) (c : SkillConfig) :
  load fs = (Ok c, fs') → sources_ok c = true.
Proof.
  unfold load, mbind, M_bind, gets, raise, lift. cbn.
  destruct (config_file fs); [|done]. destruct (safe_load _); [|done].
  destruct (kwargs _); [|done].
  destruct (SkillConfig_validate _) eqn:Hval; [|done].
  intros [= <- _]. by eapply SkillConfig_validate_some.
Qed.

Lemma init_existing (arg : option string) (fs : FS) (text : string) :
  config_file fs = Some text → init arg fs = (Raise FileExistsError, fs).
Proof. intros Hfile. unfold init, mbind, M_bind, gets. cbn. by rewrite Hfile. Qed.
End ConfigFacts.

(** X9: with no config file, [init] with a source holding one ['/'] (the
    built-in default when none or an empty one is given) writes and returns
    the config with that source as default and as only allowed source and
    no alias; a second [init] then raises [FileExistsError] and writes
    nothing; and once the file is read back, [load] returns the same config
    and the source is allowed. *)
Theorem init_fresh `{Yaml} (arg : option string) (src : string) (fs : FS) :
  let c0 := {| default_source := src; allowed_sources := [src]; aliases := ∅ |} in
  config_file fs = None →
  (arg = Some src ∧ PyStr.truthy src = true)
  ∨ ((arg = None ∨ arg = Some EmptyString) ∧ src = DEFAULT_SOURCE) →
  source_format_ok src = true →
  init arg fs = (Ok c0, saved c0 fs)
  ∧ (∀ arg', init arg' (saved c0 fs) = (Raise FileExistsError, saved c0 fs))
  ∧ (reads_back (SkillConfig_dump c0) →
     load (saved c0 fs) = (Ok c0, saved c0 fs)
     ∧ is_source_allowed src (saved c0 fs) = (Ok true, saved c0 fs)).
Proof.
  intros c0 Hfile Harg Hsrc.
  assert (sources_ok c0 = true) as Hok
    by (unfold sources_ok; cbn; by rewrite Hsrc).
  split; [|split].
  - unfold init, mbind, M_bind, gets. cbn. rewrite Hfile.
    assert (match arg with
            | Some s => if PyStr.truthy s then s else DEFAULT_SOURCE
            | None => DEFAULT_SOURCE
            end = src) as ->.
    { destruct Harg as [[-> ->]|[[->| ->] ->]]; done. }
    unfold SkillConfig_validate. cbn. rewrite Hsrc. done.
  - intros arg'. by eapply init_existing.
  - intros Hyaml. pose proof (load_saved c0 fs Hok Hyaml) as Hload.
    split; [done|].
    unfold is_source_allowed, try_except, mbind, M_bind. rewrite Hload. cbn.
    by rewrite bool_decide_true by (by left).
Qed.

Lemma init_fresh_witness :
  @init Sample.yaml_lib (Some "acme/skills") Demo.fresh
  = (Ok Sample.initial, Sample.project Sample.initial)
  ∧ @load Sample.yaml_lib (Sample.project Sample.initial)
    = (Ok Sample.initial, Sample.project Sample.initial).
Proof.
  destruct (@init_fresh Sample.yaml_lib (Some "acme/skills") "acme/skills"
              Demo.fresh) as (Hinit & _ & Hload).
  - reflexivity.
  - left. split; reflexivity.
  - reflexivity.
  - split; [exact Hinit|]. apply Hload. vm_compute. reflexivity.
Defined.

(** X10: [init] validates the source it is given: with no config file and a
    non-empty source that does not hold exactly one ['/'], it raises
    pydantic's [ValidationError] and no file is created; when a config file
    exists it raises [FileExistsError] before looking at the source. *)
Theorem init_rejects_malformed `{Yaml} (src : string) (fs : FS) :
  PyStr.truthy src = true → source_format_ok src = false →
  (config_file fs = None → init (Some src) fs = (Raise ValidationError, fs))
  ∧ (∀ text, config_file fs = Some text →
             init (Some src) fs = (Raise FileExistsError, fs)).
Proof.
  intros Htruthy Hbad. split.
  - intros Hfile. unfold init, mbind, M_bind, gets. cbn.
    rewrite Hfile, Htruthy. unfold SkillConfig_validate. cbn.
    by rewrite Hbad.
  - intros text Hfile. by eapply init_existing.
Qed.

Lemma init_rejects_malformed_witness :
  @init Sample.yaml_lib (Some "invalid") Demo.fresh
  = (Raise ValidationError, Demo.fresh).
Proof.
  apply (@init_rejects_malformed Sample.yaml_lib "invalid" Demo.fresh);
    reflexivity.
Defined.

Lemma list_remove_app_last (x : string) (l : list string) :
  x ∉ l → list_remove x (l ++ [x])%list = l.
Proof.
  induction l as [|y l IH]; intros Hx; cbn.
  - by rewrite decide_True.
  - apply not_elem_of_cons in Hx as [Hne Hx].
    by rewrite decide_False, IH.
Qed.

Lemma list_remove_first (x : string) (l : list string) :
  x ∈ l →
  ∃ pre post : list string,
    l = (pre ++ (x :: post))%list ∧ (x ∉ pre)
    ∧ list_remove x l = (pre ++ post)%list.
Proof.
  induction l as [|y l IH]; intros Hx; [by apply elem_of_nil in Hx|].
  cbn. destruct (decide (x = y)) as [->|Hne].
  - exists [], l. split; [done|]. split; [apply not_elem_of_nil|done].
  - apply elem_of_cons in Hx as [?|Hx]; [done|].
    destruct (IH Hx) as (pre & post & -> & Hpre & ->).
    exists (y :: pre), post. split; [done|].
    split; [|done]. by apply not_elem_of_cons.
Qed.

Lemma saved_saved `{Yaml} (c c' : SkillConfig) (fs : FS) :
  saved c (saved c' fs) = saved c fs.
Proof. done. Qed.

(** X11: on a config that loads, [add_source] returns a config that allows
    the source and keeps the default source, the aliases and every source
    allowed before.  A source already allowed makes it return the loaded
    config and write nothing; a new one is appended at the end and the
    config saved; a list without repetition stays without repetition. *)
Theorem add_source_result `{Yaml} (src : string) (fs : FS) (c : SkillConfig) :
  load fs = (Ok c, fs) →
  ∃ c' fs',
    add_source src fs = (Ok c', fs')
    ∧ src ∈ allowed_sources c'
    ∧ default_source c' = default_source c ∧ aliases c' = aliases c
    ∧ (src ∈ allowed_sources c → c' = c ∧ fs' = fs)
    ∧ (src ∉ allowed_sources c →
       allowed_sources c' = (allowed_sources c ++ [src])%list ∧ fs' = saved c' fs)
    ∧ (NoDup (allowed_sources c) → NoDup (allowed_sources c')).
Proof.
  intros Hload. unfold add_source, mbind, M_bind. rewrite Hload.
  destruct (decide (src ∉ allowed_sources c)) as [Hnew|Hold].
  - eexists _, _. split; [reflexivity|]. cbn.
    split; [set_solver|]. do 2 (split; [done|]).
    split; [done|]. split; [done|].
    intros Hnodup. apply NoDup_app. split; [done|].
    split; [|apply NoDup_singleton].
    intros x Hx ->%list_elem_of_singleton. done.
  - apply dec_stable in Hold.
    exists c, fs. split; [done|]. by repeat split.
Qed.

Lemma add_source_result_witness :
  @add_source Sample.yaml_lib "new/repo" (Sample.project Demo.config)
  = (Ok (Sample.with_source "new/repo"),
     Sample.project (Sample.with_source "new/repo")).
Proof.
  destruct (@add_source_result Sample.yaml_lib "new/repo"
              (Sample.project Demo.config) Demo.config)
    as (c' & fs' & Hadd & _ & _ & _ & _ & Hnew & _).
  - vm_compute. reflexivity.
  - rewrite Hadd. destruct Hnew as [Hsrcs ->].
    + cbn. rewrite !elem_of_cons, elem_of_nil. intros [|[|[]]]; discriminate.
    + revert Hadd. vm_compute. by intros [= <-].
Defined.

(** X12: [add_source] does not check the shape of the source.  Adding a
    source that does not hold exactly one ['/'] succeeds and saves it, and
    from then on [load] rejects the config file as an invalid
    configuration. *)
Theorem add_source_malformed_breaks_load `{Yaml} (src : string) (fs : FS)
    (c : SkillConfig) :
  let c' := {| default_source := default_source c;
               allowed_sources := (allowed_sources c ++ [src])%list;
               aliases := aliases c |} in
  load fs = (Ok c, fs) →
  src ∉ allowed_sources c →
  source_format_ok src = false →
  reads_back (SkillConfig_dump c') →
  add_source src fs = (Ok c', saved c' fs)
  ∧ load (saved c' fs) = (Raise (ValueError InvalidConfiguration), saved c' fs).
Proof.
  intros c' Hload Hnew Hbad Hyaml. split.
  - unfold add_source, mbind, M_bind. rewrite Hload. by rewrite decide_True.
  - apply load_saved_invalid; [|done].
    unfold sources_ok, c'; cbn. rewrite forallb_app; cbn. rewrite Hbad.
    by rewrite andb_false_r.
Qed.

Lemma add_source_malformed_breaks_load_witness :
  (@add_source Sample.yaml_lib "invalid";; @load Sample.yaml_lib)
    (Sample.project Demo.config)
  = (Raise (ValueError InvalidConfiguration),
     Sample.project (Sample.with_source "invalid")).
Proof.
  destruct (@add_source_malformed_breaks_load Sample.yaml_lib "invalid"
              (Sample.project Demo.config) Demo.config) as [Hadd Hload].
  - vm_compute. reflexivity.
  - cbn. rewrite !elem_of_cons, elem_of_nil. intros [|[|[]]]; discriminate.
  - reflexivity.
  - vm_compute. reflexivity.
  - unfold mbind, M_bind. rewrite Hadd. exact Hload.
Defined.

(** X13: adding a well-formed source that is neither allowed nor the
    default and removing it again returns the config loaded at the start
    and leaves it saved, provided the file written in between is read
    back. *)
Theorem add_then_remove_source `{Yaml} (src : string) (fs : FS)
    (c : SkillConfig) :
  load fs = (Ok c, fs) →
  src ∉ allowed_sources c → src ≠ default_source c →
  source_format_ok src = true →
  reads_back (SkillConfig_dump
                {| default_source := default_source c;
                   allowed_sources := (allowed_sources c ++ [src])%list;
                   aliases := aliases c |}) →
  (add_source src;; remove_source src) fs = (Ok c, saved c fs).
Proof.
  intros Hload Hnew Hne Hsrc Hyaml.
  pose proof (load_sources_ok _ _ _ Hload) as Hok.
  unfold sources_ok in Hok. apply andb_true_iff in Hok as [Hsrcs Hds].
  set (c' := {| default_source := default_source c;
                allowed_sources := (allowed_sources c ++ [src])%list;
                aliases := aliases c |}) in *.
  assert (load (saved c' fs) = (Ok c', saved c' fs)) as Hload'.
  { apply load_saved; [|done]. unfold sources_ok, c'; cbn.
    rewrite forallb_app; cbn. by rewrite Hsrcs, Hsrc, Hds. }
  unfold mbind at 1. unfold M_bind at 1.
  assert (add_source src fs = (Ok c', saved c' fs)) as ->.
  { unfold add_source, mbind, M_bind. rewrite Hload. by rewrite decide_True. }
  unfold remove_source, mbind, M_bind. rewrite Hload'.
  rewrite decide_False by done.
  rewrite decide_True by (cbn; set_solver).
  cbn. rewrite list_remove_app_last by done. by destruct c.
Qed.

Lemma add_then_remove_source_witness :
  (@add_source Sample.yaml_lib "new/repo";;
   @remove_source Sample.yaml_lib "new/repo") (Sample.project Demo.config)
  = (Ok Demo.config, Sample.project Demo.config).
Proof.
  apply (@add_then_remove_source Sample.yaml_lib "new/repo"
           (Sample.project Demo.config) Demo.config).
  - vm_compute. reflexivity.
  - cbn. rewrite !elem_of_cons, elem_of_nil. intros [|[|[]]]; discriminate.
  - discriminate.
  - reflexivity.
  - vm_compute. reflexivity.
Defined.

(** X14: removing an allowed source other than the default drops its first
    occurrence in the list and nothing else, saves and returns the result;
    when the list has no repetition the source is no longer allowed, and
    every other source stays allowed. *)
Theorem remove_source_present `{Yaml} (src : string) (fs : FS)
    (c : SkillConfig) :
  load fs = (Ok c, fs) →
  src ≠ default_source c → src ∈ allowed_sources c →
  ∃ (pre post : list string) c',
    allowed_sources c = (pre ++ (src :: post))%list ∧ (src ∉ pre)
    ∧ c' = {| default_source := default_source c;
              allowed_sources := (pre ++ post)%list; aliases := aliases c |}
    ∧ remove_source src fs = (Ok c', saved c' fs)
    ∧ (NoDup (allowed_sources c) → src ∉ allowed_sources c')
    ∧ (∀ other, other ≠ src →
         other ∈ allowed_sources c' ↔ other ∈ allowed_sources c).
Proof.
  intros Hload Hne Hin.
  destruct (list_remove_first src _ Hin) as (pre & post & Hl & Hpre & Hrm).
  eexists pre, post, _. split; [done|]. split; [done|]. split; [done|].
  split; [|split].
  - unfold remove_source, mbind, M_bind. rewrite Hload.
    rewrite decide_False, decide_True by done. cbn. by rewrite Hrm.
  - cbn. rewrite Hl. intros Hnodup%NoDup_app.
    destruct Hnodup as (_ & _ & Hpost%NoDup_cons). set_solver.
  - intros other Hother. cbn. rewrite Hl. set_solver.
Qed.

Lemma remove_source_present_witness :
  @remove_source Sample.yaml_lib "other/repo" (Sample.project Demo.config)
  = (Ok Sample.without_other, Sample.project Sample.without_other).
Proof.
  destruct (@remove_source_present Sample.yaml_lib "other/repo"
              (Sample.project Demo.config) Demo.config)
    as (pre & post & c' & _ & _ & _ & Hrm & _).
  - vm_compute. reflexivity.
  - discriminate.
  - cbn. rewrite !elem_of_cons. right. by left.
  - revert Hrm. vm_compute. by intros [= <-].
Defined.

(** X15: after [add_alias alias skill_name] on a config that loads,
    [resolve_alias] maps the alias to the skill name, replacing any earlier
    target, and resolves every other name as before: to its alias target if
    it has one, to itself otherwise. *)
Theorem add_alias_then_resolve `{Yaml} (alias skill_name : string) (fs : FS)
    (c : SkillConfig) :
  let c' := {| default_source := default_source c;
               allowed_sources := allowed_sources c;
               aliases := <[alias := skill_name]> (aliases c) |} in
  load fs = (Ok c, fs) →
  reads_back (SkillConfig_dump c') →
  add_alias alias skill_name fs = (Ok c', saved c' fs)
  ∧ resolve_alias alias (saved c' fs) = (Ok skill_name, saved c' fs)
  ∧ (∀ other, other ≠ alias →
       resolve_alias other (saved c' fs)
       = (Ok (default other (aliases c !! other)), saved c' fs)).
Proof.
  intros c' Hload Hyaml.
  pose proof (load_sources_ok _ _ _ Hload) as Hok.
  assert (load (saved c' fs) = (Ok c', saved c' fs)) as Hload'
    by (by apply load_saved).
  split; [|split].
  - unfold add_alias, mbind, M_bind. by rewrite Hload.
  - unfold resolve_alias, try_except, mbind, M_bind. rewrite Hload'. cbn.
    by rewrite lookup_insert_eq.
  - intros other Hne.
    unfold resolve_alias, try_except, mbind, M_bind. rewrite Hload'. cbn.
    by rewrite lookup_insert_ne.
Qed.

Lemma add_alias_then_resolve_witness :
  (@add_alias Sample.yaml_lib "nb" "notebook";;
   @resolve_alias Sample.yaml_lib "nb") (Sample.project Demo.config)
  = (Ok "notebook", Sample.project Sample.with_alias)
  ∧ @resolve_alias Sample.yaml_lib "marimo" (Sample.project Sample.with_alias)
    = (Ok "marimo-notebook", Sample.project Sample.with_alias).
Proof.
  destruct (@add_alias_then_resolve Sample.yaml_lib "nb" "notebook"
              (Sample.project Demo.config) Demo.config)
    as (Hadd & Hsame & Hother).
  - vm_compute. reflexivity.
  - vm_compute. reflexivity.
  - split.
    + unfold mbind, M_bind. rewrite Hadd. exact Hsame.
    + refine (eq_trans (Hother "marimo" _) _); [discriminate|].
      vm_compute. reflexivity.
Defined.

(** X16: [resolve_alias] and [is_source_allowed] treat a missing config
    file as no config: the name is returned as given, no source is allowed,
    and nothing is created.  Every other failure of [load] is passed on to
    the caller. *)
Theorem lookups_swallow_only_missing_file `{Yaml} (fs : FS) (arg : string) :
  (config_file fs = None →
   resolve_alias arg fs = (Ok arg, fs)
   ∧ is_source_allowed arg fs = (Ok false, fs))
  ∧ (∀ e, load fs = (Raise e, fs) → e ≠ FileNotFoundError →
          resolve_alias arg fs = (Raise e, fs)
          ∧ is_source_allowed arg fs = (Raise e, fs)).
Proof.
  split.
  - intros Hfile.
    assert (load fs = (Raise FileNotFoundError, fs)) as Hload.
    { unfold load, mbind, M_bind, gets. cbn. by rewrite Hfile. }
    unfold resolve_alias, is_source_allowed, try_except, mbind, M_bind.
    by rewrite Hload.
  - intros e Hload Hne.
    unfold resolve_alias, is_source_allowed, try_except, mbind, M_bind.
    rewrite Hload. by destruct e.
Qed.

Lemma lookups_swallow_only_missing_file_witness :
  @resolve_alias Sample.yaml_lib "marimo" Demo.fresh = (Ok "marimo", Demo.fresh)
  ∧ @is_source_allowed Sample.yaml_lib "acme/skills"
      (Sample.project (Sample.with_source "invalid"))
    = (Raise (ValueError InvalidConfiguration),
       Sample.project (Sample.with_source "invalid")).
Proof.
  split.
  - apply (@lookups_swallow_only_missing_file Sample.yaml_lib Demo.fresh
             "marimo"). reflexivity.
  - apply (@lookups_swallow_only_missing_file Sample.yaml_lib
             (Sample.project (Sample.with_source "invalid")) "acme/skills");
      [vm_compute; reflexivity|discriminate].
Defined.

(** X17: [load_or_init] initialises only when the config file is missing.
    When a file exists it does exactly what [load] does and writes nothing,
    also when the file is rejected: an invalid config is reported, not
    replaced. *)
Theorem load_or_init_keeps_existing `{Yaml} (arg : option string) (fs : FS) :
  (∀ text, config_file fs = Some text →
           load_or_init arg fs = load fs ∧ (load_or_init arg fs).2 = fs)
  ∧ (config_file fs = None → load_or_init arg fs = init arg fs).
Proof.
  split.
  - intros text Hfile.
    pose proof (load_existing_not_FileNotFoundError fs text Hfile) as Hnot.
    pose proof (load_state fs) as Hstate.
    unfold load_or_init, try_except.
    destruct (load fs) as [[c|e] fs'] eqn:Hload; cbn in *; subst fs';
      [done|].
    destruct e; cbn; done.
  - intros Hfile.
    assert (load fs = (Raise FileNotFoundError, fs)) as Hload.
    { unfold load, mbind, M_bind, gets. cbn. by rewrite Hfile. }
    unfold load_or_init, try_except. by rewrite Hload.
Qed.

Lemma load_or_init_keeps_existing_witness :
  @load_or_init Sample.yaml_lib (Some "acme/skills")
     (Sample.project (Sample.with_source "invalid"))
  = (Raise (ValueError InvalidConfiguration),
     Sample.project (Sample.with_source "invalid")).
Proof.
  destruct (@load_or_init_keeps_existing Sample.yaml_lib (Some "acme/skills")
              (Sample.project (Sample.with_source "invalid"))) as [Hkeep _].
  destruct (Hkeep _ eq_refl) as [-> _]. vm_compute. reflexivity.
Defined.

(* ===================================================================== *)
(** ** More on the installer *)
(* ===================================================================== *)

Lemma ensure_md_idem (skill_name : string) :
  ensure_md (ensure_md skill_name) = ensure_md skill_name.
Proof. unfold ensure_md at 1. by rewrite ensure_md_endswith. Qed.

Lemma ensure_md_not_sidecar (skill_name : string) :
  ensure_md skill_name ≠ METADATA_FILE.
Proof.
  intros Heq. pose proof (ensure_md_endswith skill_name) as Hmd.
  rewrite Heq in Hmd. discriminate.
Qed.

Lemma read_delete_file_eq (file : string) (fs : FS) :
  read_file file (delete_file file fs) = None.
Proof.
  unfold read_file, delete_file; cbn.
  destruct (skills_dir fs); cbn; [apply lookup_delete_eq|done].
Qed.

Lemma read_delete_file_ne (file file' : string) (fs : FS) :
  file ≠ file' → read_file file' (delete_file file fs) = read_file file' fs.
Proof.
  intros Hne. unfold read_file, delete_file; cbn.
  destruct (skills_dir fs); cbn; [by apply lookup_delete_ne|done].
Qed.

(** A path that exists leads to an entry of the skills directory. *)
Lemma path_exists_true (name : string) (fs fs' : FS) :
  path_exists name fs = (Ok true, fs') →
  fs' = fs ∧ ∃ file text, locate name = Child file
                          ∧ read_file file fs = Some text.
Proof.
  unfold path_exists. destruct (locate name) as [file|dir|]; [|done|done].
  intros [= Hthere <-]. split; [done|].
  apply bool_decide_eq_true in Hthere as [text Htext]. by exists file, text.
Qed.

Lemma path_exists_child (name file : string) (fs : FS) :
  locate name = Child file →
  path_exists name fs = (Ok (bool_decide (is_Some (read_file file fs))), fs).
Proof. intros Hloc. unfold path_exists. by rewrite Hloc. Qed.

(** When an entry exists the skills directory exists: creating it is a
    no-op. *)
Lemma ensure_existing (file text : string) (fs : FS) :
  read_file file fs = Some text →
  {| config_file := config_file fs;
     skills_dir := Some (default ∅ (skills_dir fs)) |} = fs.
Proof.
  unfold read_file. destruct fs as [cfg [dir|]]; cbn; [done|done].
Qed.

Section InstallerMore.
Context `{Yaml} `{Hashlib} `{Datetime}.

Lemma _load_metadata_state (fs : FS) : (_load_metadata fs).2 = fs.
Proof.
  unfold _load_metadata, mbind, M_bind, gets, raise, lift, mret, M_ret. cbn.
  destruct (read_file METADATA_FILE fs); [|done].
  destruct (safe_load _); [|done]. destruct (kwargs _); [|done].
  by destruct (SkillsMetadata_validate _).
Qed.

(** The index is read back from a sidecar the program wrote. *)
Lemma _load_metadata_written (fs : FS) (m : SkillsMetadata) :
  read_file METADATA_FILE fs = Some (safe_dump (SkillsMetadata_dump m)) →
  datetime_reads_back → reads_back (SkillsMetadata_dump m) →
  _load_metadata fs = (Ok m, fs).
Proof.
  intros Hfile Htime Hyaml.
  destruct (SkillsMetadata_validate_dump Htime m) as (kw & Hkw & Hval).
  unfold _load_metadata, mbind, M_bind, gets, lift. cbn.
  rewrite Hfile. unfold reads_back in Hyaml. by rewrite Hyaml, Hkw, Hval.
Qed.

Lemma _load_metadata_unreadable (fs : FS) (text : string) :
  read_file METADATA_FILE fs = Some text → safe_load text = None →
  _load_metadata fs = (Raise YAMLError, fs).
Proof.
  intros Hfile Hbad. unfold _load_metadata, mbind, M_bind, gets. cbn.
  by rewrite Hfile, Hbad.
Qed.

Lemma _save_metadata_existing (m : SkillsMetadata) (fs : FS) :
  _save_metadata m fs = (Ok tt, index_saved m fs).
Proof. done. Qed.
End InstallerMore.

(** X18: for a skill whose file name leads to an entry of the skills
    directory, under [OVERWRITE], whenever the index loads, [install]
    returns [True] whether or not the entry exists; afterwards the entry
    holds the new content, and once the sidecar is read back the index
    holds the new record under the skill's file name (source, branch, time
    and checksum of the new content) and every other record as before. *)
Theorem install_overwrite_replaces `{Yaml} `{Hashlib} `{Datetime}
    (skill : Skill) (now : datetime) (fs : FS) (m : SkillsMetadata)
    (file : string) :
  let m' := {| skills := <[filename skill := record_of skill now]> (skills m) |} in
  let fs1 := installed fs file skill now m in
  locate (filename skill) = Child file →
  _load_metadata fs = (Ok m, fs) →
  install skill OVERWRITE now fs = (Ok true, fs1)
  ∧ read_file file fs1 = Some (content skill)
  ∧ (datetime_reads_back → reads_back (SkillsMetadata_dump m') →
     get_skill_info (name skill) fs1 = (Ok (Some (record_of skill now)), fs1)
     ∧ list_skills fs1
       = (Ok (<[filename skill := record_of skill now]> (skills m)), fs1)).
Proof.
  intros m' fs1 Hloc Hload. split; [apply install_writes; auto|]. split.
  - unfold fs1, installed.
    rewrite read_write_file_ne
      by (symmetry; by eapply located_not_sidecar;
          [apply filename_endswith_md|]).
    apply read_write_file_eq.
  - intros Htime Hyaml.
    assert (_load_metadata fs1 = (Ok m', fs1)) as Hload1.
    { apply _load_metadata_written; [|done|done].
      unfold fs1, installed. apply read_write_file_eq. }
    unfold get_skill_info, list_skills, mbind, M_bind. rewrite Hload1. cbn.
    by rewrite ensure_md_filename, lookup_insert_eq.
Qed.

Lemma install_overwrite_replaces_witness :
  let fs0 := @installed Demo.yaml_lib Demo.hashlib Demo.clock Demo.fresh
               "skill-a.md" Demo.skill "2024-01-01T10:00:00"
               {| skills := ∅ |} in
  let fs1 := @installed Sample.yaml_lib Demo.hashlib Demo.clock fs0
               "skill-a.md" Sample.skill_v2 "2024-03-03T09:00:00" Demo.index in
  @install Sample.yaml_lib Demo.hashlib Demo.clock Sample.skill_v2 OVERWRITE
     "2024-03-03T09:00:00" fs0 = (Ok true, fs1)
  ∧ read_file "skill-a.md" fs1 = Some "# Skill A, second edition"
  ∧ @get_skill_info Sample.yaml_lib Demo.clock "skill-a" fs1
    = (Ok (Some (@record_of Demo.hashlib Demo.clock Sample.skill_v2
                   "2024-03-03T09:00:00")), fs1).
Proof.
  intros fs0 fs1.
  destruct (@install_overwrite_replaces Sample.yaml_lib Demo.hashlib Demo.clock
              Sample.skill_v2 "2024-03-03T09:00:00" fs0 Demo.index "skill-a.md")
    as (Hinstall & Hread & Hinfo).
  - reflexivity.
  - vm_compute. reflexivity.
  - split; [exact Hinstall|]. split; [exact Hread|].
    specialize (Hinfo (λ t, eq_refl)).
    destruct Hinfo as [Hinfo _]; [vm_compute; reflexivity|].
    exact Hinfo.
Defined.

(** X19: when the target file exists, [install] under [PROMPT] raises
    [FileExistsError] and under [SKIP] returns [False]; in both cases
    nothing is written and the index is not even read, so neither depends
    on the state of the sidecar. *)
Theorem install_existing_untouched `{Yaml} `{Hashlib} `{Datetime}
    (skill : Skill) (now : datetime) (fs : FS) :
  path_exists (filename skill) fs = (Ok true, fs) →
  install skill PROMPT now fs = (Raise FileExistsError, fs)
  ∧ install skill SKIP now fs = (Ok false, fs).
Proof.
  intros Hexists.
  destruct (path_exists_true _ _ _ Hexists) as (_ & file & text & Hloc & Hthere).
  rewrite !(install_unfold _ _ _ _ _ Hloc), Hthere.
  rewrite bool_decide_true by done.
  by rewrite (ensure_existing _ _ _ Hthere).
Qed.

Lemma install_existing_untouched_witness :
  @install Sample.yaml_lib Demo.hashlib Demo.clock Demo.skill PROMPT
     "2024-01-01T10:00:00" (Sample.skills_with_sidecar "{not yaml")
  = (Raise FileExistsError, Sample.skills_with_sidecar "{not yaml").
Proof.
  apply (@install_existing_untouched Sample.yaml_lib Demo.hashlib Demo.clock
           Demo.skill "2024-01-01T10:00:00"
           (Sample.skills_with_sidecar "{not yaml")).
  reflexivity.
Defined.

(** X20: [install] writes the skill file before it reads the index.  For a
    skill whose file name leads to an entry of the skills directory, when
    the sidecar is not YAML, an install that goes ahead (entry absent, or
    [OVERWRITE]) raises the YAML error with the entry already written and
    the sidecar left as it was: the skill is installed without a record. *)
Theorem install_unreadable_index `{Yaml} `{Hashlib} `{Datetime}
    (skill : Skill) (cr : ConflictResolution) (now : datetime) (fs : FS)
    (text file : string) :
  let fs1 := write_file file (content skill) fs in
  locate (filename skill) = Child file →
  read_file file fs = None ∨ cr = OVERWRITE →
  read_file METADATA_FILE fs = Some text → safe_load text = None →
  install skill cr now fs = (Raise YAMLError, fs1)
  ∧ read_file file fs1 = Some (content skill)
  ∧ is_installed (name skill) fs1 = (Ok true, fs1)
  ∧ read_file METADATA_FILE fs1 = Some text.
Proof.
  intros fs1 Hloc Hgo Hfile Hbad.
  assert (file ≠ METADATA_FILE) as Hne
    by (by eapply located_not_sidecar; [apply filename_endswith_md|]).
  assert (read_file METADATA_FILE fs1 = Some text) as Hfile1.
  { unfold fs1. by rewrite read_write_file_ne. }
  assert (read_file file fs1 = Some (content skill)) as Hread
    by apply read_write_file_eq.
  split; [|split; [done|split; [|done]]].
  - pose proof (_load_metadata_unreadable fs1 text Hfile1 Hbad) as Hload.
    rewrite (install_unfold _ _ _ _ _ Hloc). fold fs1. rewrite Hload.
    destruct Hgo as [Habsent | ->].
    + rewrite Habsent, bool_decide_false by (by intros [? ?]). by destruct cr.
    + by destruct (bool_decide _).
  - unfold is_installed. rewrite ensure_md_filename.
    rewrite (path_exists_child _ _ _ Hloc), Hread.
    by rewrite bool_decide_true.
Qed.

Lemma install_unreadable_index_witness :
  @install Sample.yaml_lib Demo.hashlib Demo.clock Sample.skill_v2 OVERWRITE
     "2024-03-03T09:00:00" (Sample.skills_with_sidecar "{not yaml")
  = (Raise YAMLError,
     write_file "skill-a.md" "# Skill A, second edition"
       (Sample.skills_with_sidecar "{not yaml")).
Proof.
  apply (@install_unreadable_index Sample.yaml_lib Demo.hashlib Demo.clock
           Sample.skill_v2 OVERWRITE "2024-03-03T09:00:00"
           (Sample.skills_with_sidecar "{not yaml") "{not yaml" "skill-a.md").
  - reflexivity.
  - by right.
  - reflexivity.
  - reflexivity.
Defined.

(** X21: for a skill whose file name leads to an entry of the skills
    directory or through one, whatever the outcome of [install], the config
    file and every entry of the skills directory other than the one the
    name leads to and the sidecar are left as they were. *)
Theorem install_frame `{Yaml} `{Hashlib} `{Datetime} (skill : Skill)
    (cr : ConflictResolution) (now : datetime) (fs : FS) (file : string) :
  locate (filename skill) ≠ Outside →
  locate (filename skill) ≠ Child file → file ≠ METADATA_FILE →
  read_file file (install skill cr now fs).2 = read_file file fs
  ∧ config_file (install skill cr now fs).2 = config_file fs.
Proof.
  intros Hinside Hother Hsidecar.
  destruct (locate (filename skill)) as [target|dir|] eqn:Hloc; [| |done].
  - assert (target ≠ file) as Hne by congruence.
    rewrite (install_unfold _ _ _ _ _ Hloc).
    pose proof (_load_metadata_state (write_file target (content skill) fs))
      as Hstate.
    destruct (bool_decide _), cr; cbn [snd];
      try (split; [apply read_file_ensured|done]);
      destruct (_load_metadata _) as [[m|e] fs']; simpl in Hstate; subst fs';
      cbn [snd]; rewrite ?(read_write_file_ne METADATA_FILE) by done;
      by rewrite read_write_file_ne.
  - unfold install, mbind, M_bind, _ensure_skills_dir, modify, path_exists,
      open_write. rewrite Hloc. cbn [snd].
    split; [apply read_file_ensured|done].
Qed.

Lemma install_frame_witness :
  read_file "other.md"
    (@install Sample.yaml_lib Demo.hashlib Demo.clock Sample.respelled_skill
       OVERWRITE "2024-01-01T10:00:00"
       (write_file "other.md" "# Other" Demo.fresh)).2
  = Some "# Other".
Proof.
  refine (eq_trans (proj1 (@install_frame Sample.yaml_lib Demo.hashlib
    Demo.clock Sample.respelled_skill OVERWRITE "2024-01-01T10:00:00"
    (write_file "other.md" "# Other" Demo.fresh) "other.md" _ _ _)) _);
    [discriminate|discriminate|discriminate|reflexivity].
Defined.

Lemma remove_present `{Yaml} `{Datetime} (skill_name file text : string)
    (fs : FS) (m : SkillsMetadata) :
  locate (ensure_md skill_name) = Child file →
  read_file file fs = Some text →
  _load_metadata fs = (Ok m, fs) →
  remove skill_name fs
  = (Ok true,
     if decide (is_Some (skills m !! ensure_md skill_name)) then
       index_saved {| skills := delete (ensure_md skill_name) (skills m) |}
         (delete_file file fs)
     else delete_file file fs).
Proof.
  intros Hloc Hthere Hload.
  assert (_load_metadata (delete_file file fs) = (Ok m, delete_file file fs))
    as Hload'.
  { eapply _load_metadata_frame; [|done].
    apply read_delete_file_ne.
    by eapply located_not_sidecar; [apply ensure_md_endswith|]. }
  unfold remove, mbind, M_bind.
  rewrite (path_exists_child _ _ _ Hloc), Hthere, bool_decide_true by done.
  cbn [negb]. unfold unlink.
  rewrite Hloc, Hthere, bool_decide_true by done.
  rewrite Hload'.
  destruct (decide (is_Some (skills m !! ensure_md skill_name))); [|done].
  by rewrite _save_metadata_existing.
Qed.

(** X22: [remove] of a skill whose normalised name leads to an entry of the
    skills directory.  When the entry is absent it returns [False] and
    touches nothing, whatever the index holds.  When the entry is present
    and the index loads, the entry is deleted and [True] returned; if the
    index has a record under the normalised name, the sidecar is rewritten
    without that record and with every other record kept; if it has none,
    the sidecar is not written at all. *)
Theorem remove_outcome `{Yaml} `{Datetime} (skill_name file : string) (fs : FS)
    (m : SkillsMetadata) :
  locate (ensure_md skill_name) = Child file →
  (read_file file fs = None → remove skill_name fs = (Ok false, fs))
  ∧ (is_Some (read_file file fs) → _load_metadata fs = (Ok m, fs) →
     remove skill_name fs
     = (Ok true,
        if decide (is_Some (skills m !! ensure_md skill_name)) then
          index_saved {| skills := delete (ensure_md skill_name) (skills m) |}
            (delete_file file fs)
        else delete_file file fs)
     ∧ read_file file (remove skill_name fs).2 = None).
Proof.
  intros Hloc. split.
  - intros Habsent. unfold remove, mbind, M_bind, path_exists.
    rewrite Hloc, Habsent. by rewrite bool_decide_false by (by intros [? ?]).
  - intros [text Hthere] Hload.
    pose proof (remove_present skill_name file text fs m Hloc Hthere Hload)
      as Hremove.
    split; [done|]. rewrite Hremove. cbn [snd].
    destruct (decide _); [|apply read_delete_file_eq].
    unfold index_saved.
    rewrite read_write_file_ne
      by (symmetry; by eapply located_not_sidecar;
          [apply ensure_md_endswith|]).
    apply read_delete_file_eq.
Qed.

Lemma remove_outcome_witness :
  @remove Sample.yaml_lib Demo.clock "missing" Demo.fresh = (Ok false, Demo.fresh)
  ∧ (@remove Sample.yaml_lib Demo.clock "./skill-a"
       (Sample.skills_with_sidecar
          (Demo.print (@SkillsMetadata_dump Demo.clock Demo.index)))).1
    = Ok true.
Proof.
  split.
  - apply (@remove_outcome Sample.yaml_lib Demo.clock "missing" "missing.md"
             Demo.fresh Sample.empty_index); reflexivity.
  - destruct (@remove_outcome Sample.yaml_lib Demo.clock "./skill-a"
                "skill-a.md"
                (Sample.skills_with_sidecar
                   (Demo.print (@SkillsMetadata_dump Demo.clock Demo.index)))
                Demo.index eq_refl) as [_ Hpresent].
    destruct Hpresent as [-> _];
      [by eexists|vm_compute; reflexivity|reflexivity].
Defined.

(** X23: [remove] deletes the skill file before it reads the index.  When
    the file is present and the sidecar is not YAML, [remove] raises the
    YAML error with the file already deleted and the sidecar left as it
    was. *)
Theorem remove_unreadable_index `{Yaml} `{Datetime} (skill_name : string)
    (fs : FS) (text : string) :
  path_exists (ensure_md skill_name) fs = (Ok true, fs) →
  read_file METADATA_FILE fs = Some text → safe_load text = None →
  ∃ file,
    locate (ensure_md skill_name) = Child file
    ∧ remove skill_name fs = (Raise YAMLError, delete_file file fs)
    ∧ is_installed skill_name (delete_file file fs)
      = (Ok false, delete_file file fs)
    ∧ read_file METADATA_FILE (delete_file file fs) = Some text.
Proof.
  intros Hpresent Hfile Hbad.
  destruct (path_exists_true _ _ _ Hpresent)
    as (_ & file & content & Hloc & Hthere).
  exists file. split; [done|].
  assert (read_file METADATA_FILE (delete_file file fs) = Some text) as Hfile'.
  { rewrite read_delete_file_ne; [done|].
    by eapply located_not_sidecar; [apply ensure_md_endswith|]. }
  split; [|split; [|done]].
  - unfold remove, mbind, M_bind.
    rewrite (path_exists_child _ _ _ Hloc), Hthere, bool_decide_true by done.
    cbn [negb]. unfold unlink.
    rewrite Hloc, Hthere, bool_decide_true by done.
    by rewrite (_load_metadata_unreadable (H1:=H0) _ text Hfile' Hbad).
  - unfold is_installed. rewrite (path_exists_child _ _ _ Hloc).
    rewrite read_delete_file_eq.
    by rewrite bool_decide_false by (by intros [? ?]).
Qed.

Lemma remove_unreadable_index_witness :
  @remove Sample.yaml_lib Demo.clock "skill-a"
     (Sample.skills_with_sidecar "{not yaml")
  = (Raise YAMLError,
     delete_file "skill-a.md" (Sample.skills_with_sidecar "{not yaml")).
Proof.
  destruct (@remove_unreadable_index Sample.yaml_lib Demo.clock "skill-a"
              (Sample.skills_with_sidecar "{not yaml") "{not yaml")
    as (file & Hloc & Hremove & _); [reflexivity|reflexivity|reflexivity|].
  injection Hloc as <-. exact Hremove.
Defined.

(** X24: for a skill whose file name leads to an entry of the skills
    directory, installing it when the entry is absent and the index has no
    record under its file name, and then removing it, returns [True] and
    undoes the install as far as the program can see: the skill is no
    longer installed and the index read back is the one before the
    install. *)
Theorem install_then_remove `{Yaml} `{Hashlib} `{Datetime} (skill : Skill)
    (cr : ConflictResolution) (now : datetime) (fs : FS) (m : SkillsMetadata)
    (file : string) :
  let m' := {| skills := <[filename skill := record_of skill now]> (skills m) |} in
  locate (filename skill) = Child file →
  read_file file fs = None →
  _load_metadata fs = (Ok m, fs) →
  skills m !! filename skill = None →
  datetime_reads_back →
  reads_back (SkillsMetadata_dump m') → reads_back (SkillsMetadata_dump m) →
  ∃ fs2,
    (install skill cr now;; remove (name skill)) fs = (Ok true, fs2)
    ∧ is_installed (name skill) fs2 = (Ok false, fs2)
    ∧ list_skills fs2 = (Ok (skills m), fs2)
    ∧ config_file fs2 = config_file fs.
Proof.
  intros m' Hloc Habsent Hload Hnone Htime Hyaml' Hyaml.
  assert (file ≠ METADATA_FILE) as Hne
    by (by eapply located_not_sidecar; [apply filename_endswith_md|]).
  set (fs1 := installed fs file skill now m).
  assert (install skill cr now fs = (Ok true, fs1)) as Hinstall
    by (apply install_writes; auto).
  assert (_load_metadata fs1 = (Ok m', fs1)) as Hload1.
  { apply _load_metadata_written; [|done|done].
    unfold fs1, installed. apply read_write_file_eq. }
  assert (read_file file fs1 = Some (content skill)) as Hthere.
  { unfold fs1, installed. rewrite read_write_file_ne by done.
    apply read_write_file_eq. }
  assert (locate (ensure_md (name skill)) = Child file) as Hloc'
    by (by rewrite ensure_md_filename).
  pose proof (remove_present (name skill) file _ fs1 m' Hloc' Hthere Hload1)
    as Hrm.
  rewrite ensure_md_filename in Hrm.
  assert (is_Some (skills m' !! filename skill)) as Hsome
    by (cbn; by rewrite lookup_insert_eq).
  rewrite decide_True in Hrm by done.
  assert ({| skills := delete (filename skill) (skills m') |} = m) as Hback.
  { cbn. rewrite delete_insert_id by done. by destruct m. }
  rewrite Hback in Hrm.
  set (fs2 := index_saved m (delete_file file fs1)) in *.
  exists fs2. split; [|split; [|split]].
  - unfold mbind at 1. unfold M_bind at 1. by rewrite Hinstall.
  - unfold is_installed. rewrite (path_exists_child _ _ _ Hloc').
    unfold fs2, index_saved.
    rewrite read_write_file_ne by done.
    by rewrite read_delete_file_eq, bool_decide_false by (by intros [? ?]).
  - assert (_load_metadata fs2 = (Ok m, fs2)) as Hload2.
    { apply _load_metadata_written; [|done|done].
      unfold fs2, index_saved. apply read_write_file_eq. }
    unfold list_skills, mbind, M_bind. by rewrite Hload2.
  - done.
Qed.

Lemma install_then_remove_witness :
  ∃ fs2,
    (@install Sample.yaml_lib Demo.hashlib Demo.clock Demo.skill SKIP
       "2024-01-01T10:00:00";;
     @remove Sample.yaml_lib Demo.clock "skill-a") Demo.fresh = (Ok true, fs2)
    ∧ @is_installed "skill-a" fs2 = (Ok false, fs2)
    ∧ @list_skills Sample.yaml_lib Demo.clock fs2 = (Ok ∅, fs2)
    ∧ config_file fs2 = None.
Proof.
  apply (@install_then_remove Sample.yaml_lib Demo.hashlib Demo.clock
           Demo.skill SKIP "2024-01-01T10:00:00" Demo.fresh Sample.empty_index
           "skill-a.md");
    try reflexivity.
  all: vm_compute; reflexivity.
Defined.

(** X25: the operations that take a skill name accept it with or without
    the [.md] extension: [is_installed], [get_skill_info], [needs_update]
    and [remove] do the same for a name and for that name with [.md]
    appended when it does not end in it. *)
Theorem skill_name_extension_optional `{Yaml} `{Datetime}
    (skill_name new_checksum : string) (fs : FS) :
  is_installed (ensure_md skill_name) fs = is_installed skill_name fs
  ∧ get_skill_info (ensure_md skill_name) fs = get_skill_info skill_name fs
  ∧ needs_update (ensure_md skill_name) new_checksum fs
    = needs_update skill_name new_checksum fs
  ∧ remove (ensure_md skill_name) fs = remove skill_name fs.
Proof.
  unfold is_installed, needs_update, get_skill_info, remove.
  by rewrite !ensure_md_idem.
Qed.

(** X26: with no sidecar, or a sidecar that parses to nothing (or to any
    value Python takes as false), the index is empty: no skill is listed,
    no skill has a record and none needs an update, even if its file is
    present. *)
Theorem empty_index_knows_nothing `{Yaml} `{Datetime} (fs : FS)
    (skill_name new_checksum : string) :
  read_file METADATA_FILE fs = None
  ∨ (∃ text doc, read_file METADATA_FILE fs = Some text
                 ∧ safe_load text = Some doc ∧ py_truthy doc = false) →
  list_skills fs = (Ok ∅, fs)
  ∧ get_skill_info skill_name fs = (Ok None, fs)
  ∧ needs_update skill_name new_checksum fs = (Ok false, fs).
Proof.
  intros Hempty.
  assert (_load_metadata fs = (Ok {| skills := ∅ |}, fs)) as Hload.
  { unfold _load_metadata, mbind, M_bind, gets, lift. cbn.
    destruct Hempty as [->|(text & doc & -> & -> & Hfalse)]; [done|].
    unfold or_empty_dict. by rewrite Hfalse. }
  unfold list_skills, needs_update, get_skill_info, mbind, M_bind.
  rewrite Hload. cbn. by rewrite lookup_empty.
Qed.

Lemma empty_index_knows_nothing_witness :
  @needs_update Sample.yaml_lib Demo.clock "skill-a" "sha256:other"
     (Sample.skills_with_sidecar "null")
  = (Ok false, Sample.skills_with_sidecar "null").
Proof.
  apply (@empty_index_knows_nothing Sample.yaml_lib Demo.clock
           (Sample.skills_with_sidecar "null") "skill-a" "sha256:other").
  right. exists "null", YNull. repeat split; reflexivity.
Defined.

(** X27: in a project that has no skills directory yet, a skill whose file
    name goes through a directory (as ["sub/skill"] does) cannot be
    installed under any conflict policy: the skills directory is created,
    the target is found absent, and opening it raises [FileNotFoundError];
    no file, no sidecar and no record is written. *)
Theorem install_through_directory `{Yaml} `{Hashlib} `{Datetime}
    (skill : Skill) (cr : ConflictResolution) (now : datetime) (fs : FS)
    (dir : string) :
  skills_dir fs = None →
  locate (filename skill) = Below dir →
  install skill cr now fs
  = (Raise FileNotFoundError,
     {| config_file := config_file fs; skills_dir := Some ∅ |}).
Proof.
  intros Hnone Hloc.
  unfold install, mbind, M_bind, _ensure_skills_dir, modify, path_exists,
    open_write. rewrite Hloc, Hnone. cbn.
  by destruct cr.
Qed.

Lemma install_through_directory_witness :
  @install Sample.yaml_lib Demo.hashlib Demo.clock Sample.nested_skill
     OVERWRITE "2024-01-01T10:00:00" Demo.fresh
  = (Raise FileNotFoundError, {| config_file := None; skills_dir := Some ∅ |}).
Proof.
  apply (@install_through_directory Sample.yaml_lib Demo.hashlib Demo.clock
           Sample.nested_skill OVERWRITE "2024-01-01T10:00:00" Demo.fresh "sub");
    reflexivity.
Defined.
